(** * Evaluation router: a shallow embedding of
      agenta_backend/routers/evaluation_router.py

    The router is request/response glue around external collaborators (the
    authorization service, the database layer, the evaluation service, the
    task queue).  The handlers are embedded as programs of a small monad
    that threads the state of the outside world, may raise a Python
    exception, and records every collaborator call together with its
    outcome.  The collaborators themselves are not part of the file under
    study: they are taken as parameters, so every theorem holds for whatever
    they do. *)

From Stdlib Require Import ZArith List String Ascii Bool Lia.
Import ListNotations.
Local Open Scope string_scope.
Local Open Scope Z_scope.
Local Open Scope list_scope.

Set Implicit Arguments.
Set Warnings "-register-all".

(** ** Data *)

(** Values the router only passes through (JSON-like Python data). *)
Inductive PyValue : Type :=
| PyNone
| PyBool (b : bool)
| PyInt (z : Z)
| PyStr (s : string)
| PyList (l : list PyValue)
| PyDict (d : list (string * PyValue)).

(** Python exceptions, as far as the router tells them apart: by class
    ([except KeyError], [except Exception]), by the presence of a
    [status_code] attribute, and by [str(exc)].  For every class but
    [HTTPException] the carried [msg] is the text [str(exc)] yields.  All of
    them derive from [Exception]. *)
Inductive PyExc : Type :=
| HTTPException (status_code : Z) (detail : string)
| KeyError (msg : string)
| IndexError (msg : string)
| AttributeError (msg : string)
| Error (class_name : string) (status_code : option Z) (msg : string).

(** The [status_code] attribute of an exception, when it has one. *)
Definition status_code_attr (exc : PyExc) : option Z :=
  match exc with
  | HTTPException status_code _ => Some status_code
  | Error _ status_code _ => status_code
  | _ => None
  end.

(** Outcome of a call: a value, or a raised exception. *)
Inductive Res (A : Type) : Type :=
| Ok (a : A)
| Raise (e : PyExc).
Arguments Raise {A} e.

Inductive Permission : Type :=
| VIEW_EVALUATION
| CREATE_EVALUATION
| DELETE_EVALUATION.

Module AppDB.
Record t : Type := { id : string; fields : PyValue }.
End AppDB.

Module EvaluationDB.
Record t : Type :=
  { id : string; status : PyValue; aggregated_results : PyValue }.
End EvaluationDB.

(** The API model [Evaluation] returned by the evaluation service. *)
Module Evaluation.
Record t : Type := { id : string; fields : PyValue }.
End Evaluation.

(** [request.state] *)
Module State.
Record t : Type := { user_id : string; project_id : string }.
End State.

Module Request.
Record t : Type := { state : State.t }.
End Request.

Module NewEvaluation.
Record t : Type :=
  { app_id : string;
    variant_ids : list string;
    evaluators_configs : list string;
    testset_id : string;
    rate_limit : list (string * PyValue);
    lm_providers_keys : PyValue }.
End NewEvaluation.

Module DeleteEvaluation.
Record t : Type := { evaluations_ids : list string }.
End DeleteEvaluation.

(** The object handed to the authorization predicate ([object=...]). *)
Inductive AccessObject : Type :=
| ObjEvaluation (e : EvaluationDB.t)
| ObjApp (a : AppDB.t).

(** Keyword arguments of [check_action_access]; an argument the call site
    leaves out, or passes as [None], is [None]. *)
Module Access.
Record t : Type :=
  { user_uid : string;
    project_id : option string;
    permission : Permission;
    object : option AccessObject;
    object_id : option string;
    object_type : option string }.
End Access.

(** Keyword arguments of [evaluate.delay]. *)
Module EvaluateJob.
Record t : Type :=
  { app_id : string;
    project_id : string;
    variant_id : string;
    evaluators_config_ids : list string;
    testset_id : string;
    evaluation_id : string;
    rate_limit_config : PyValue;
    lm_providers_keys : PyValue }.
End EvaluateJob.

(** What a handler hands back to the framework when it returns. *)
Inductive Returned (A : Type) : Type :=
| JSONResponse (detail : string) (status_code : Z)
    (* JSONResponse({"detail": detail}, status_code=status_code) *)
| Response (content : option string) (status_code : Z)
    (* Response(content=content, status_code=status_code) *)
| Forwarded (response : PyValue)
    (* a response object built by a collaborator, returned unchanged *)
| Body (a : A).
    (* a Python value, serialised by the framework *)
Arguments JSONResponse {A} detail status_code.
Arguments Response {A} content status_code.
Arguments Forwarded {A} response.

(** ** Collaborator calls *)

(** One constructor per external function the router calls; an event is the
    call with its arguments and its outcome. *)
Inductive Event : Type :=
| Ev_check_action_access (args : Access.t) (r : Res bool)
| Ev_fetch_evaluations_by_resource
    (resource_type project_id : string) (resource_ids : option (list string))
    (r : Res (list EvaluationDB.t))
| Ev_fetch_app_by_id (app_id project_id : string) (r : Res (option AppDB.t))
| Ev_check_ai_critique_inputs
    (evaluators_configs : list string) (lm_providers_keys : PyValue)
    (r : Res (bool * PyValue))
| Ev_create_new_evaluation
    (app_id project_id variant_id testset_id : string) (r : Res Evaluation.t)
| Ev_evaluate_delay (job : EvaluateJob.t) (r : Res unit)
| Ev_update_last_modified_by
    (user_uid object_id object_type project_id : string) (r : Res unit)
| Ev_fetch_evaluation_by_id
    (evaluation_id project_id : string) (r : Res (option EvaluationDB.t))
| Ev_aggregated_result_of_evaluation_to_pydantic
    (aggregated_results : PyValue) (r : Res PyValue)
| Ev_fetch_evaluation_scenarios_for_evaluation
    (evaluation_id project_id : string) (r : Res PyValue)
| Ev_fetch_list_evaluations
    (app : option AppDB.t) (project_id : string) (r : Res (list Evaluation.t))
| Ev_evaluation_db_to_pydantic (evaluation : EvaluationDB.t) (r : Res PyValue)
| Ev_delete_evaluations (ids : list string) (project_id : string) (r : Res unit)
| Ev_compare_evaluations_scenarios
    (ids : list string) (project_id : string) (r : Res PyValue).

(** The exception a call ended with, if it raised. *)
Definition raised_by {A : Type} (r : Res A) : option PyExc :=
  match r with
  | Ok _ => None
  | Raise e => Some e
  end.

Definition event_exception (ev : Event) : option PyExc :=
  match ev with
  | Ev_check_action_access _ r => raised_by r
  | Ev_fetch_evaluations_by_resource _ _ _ r => raised_by r
  | Ev_fetch_app_by_id _ _ r => raised_by r
  | Ev_check_ai_critique_inputs _ _ r => raised_by r
  | Ev_create_new_evaluation _ _ _ _ r => raised_by r
  | Ev_evaluate_delay _ r => raised_by r
  | Ev_update_last_modified_by _ _ _ _ r => raised_by r
  | Ev_fetch_evaluation_by_id _ _ r => raised_by r
  | Ev_aggregated_result_of_evaluation_to_pydantic _ r => raised_by r
  | Ev_fetch_evaluation_scenarios_for_evaluation _ _ r => raised_by r
  | Ev_fetch_list_evaluations _ _ r => raised_by r
  | Ev_evaluation_db_to_pydantic _ r => raised_by r
  | Ev_delete_evaluations _ _ r => raised_by r
  | Ev_compare_evaluations_scenarios _ _ r => raised_by r
  end.

(** The environment of the router.  [World] is the state of everything
    outside it (database, authorization service, task queue, the generator
    behind [random]); a collaborator reads and updates it and either returns
    or raises.  [isCloudEE] is the deployment flag; [str_HTTPException] is
    the framework's [str()] of an [HTTPException]. *)
Record Collaborators (World : Type) : Type :=
  { isCloudEE : bool;
    str_HTTPException : Z -> string -> string;
    randbelow : nat -> World -> nat * World;
    check_action_access : Access.t -> World -> Res bool * World;
    check_ai_critique_inputs :
      list string -> PyValue -> World -> Res (bool * PyValue) * World;
    evaluate_delay : EvaluateJob.t -> World -> Res unit * World;
    db_manager_fetch_evaluations_by_resource :
      string -> string -> option (list string) -> World ->
      Res (list EvaluationDB.t) * World;
    db_manager_fetch_app_by_id :
      string -> string -> World -> Res (option AppDB.t) * World;
    db_manager_fetch_evaluation_by_id :
      string -> string -> World -> Res (option EvaluationDB.t) * World;
    app_manager_update_last_modified_by :
      string -> string -> string -> string -> World -> Res unit * World;
    converters_aggregated_result_of_evaluation_to_pydantic :
      PyValue -> World -> Res PyValue * World;
    converters_evaluation_db_to_pydantic :
      EvaluationDB.t -> World -> Res PyValue * World;
    evaluation_service_create_new_evaluation :
      string -> string -> string -> string -> World ->
      Res Evaluation.t * World;
    evaluation_service_fetch_evaluation_scenarios_for_evaluation :
      string -> string -> World -> Res PyValue * World;
    evaluation_service_fetch_list_evaluations :
      option AppDB.t -> string -> World -> Res (list Evaluation.t) * World;
    evaluation_service_delete_evaluations :
      list string -> string -> World -> Res unit * World;
    evaluation_service_compare_evaluations_scenarios :
      list string -> string -> World -> Res PyValue * World }.

(** ** The monad of handlers *)

(** A run from a world: the outcome, the world it leaves, and the
    collaborator calls it made, oldest first. *)
Definition Run (World A : Type) : Type := (Res A * World * list Event)%type.

Definition result {World A : Type} (r : Run World A) : Res A := fst (fst r).
Definition world {World A : Type} (r : Run World A) : World := snd (fst r).
Definition trace {World A : Type} (r : Run World A) : list Event := snd r.

Definition M (World A : Type) : Type := World -> Run World A.

Definition ret {World A : Type} (a : A) : M World A :=
  fun w => (Ok a, w, []).

Definition raise {World A : Type} (e : PyExc) : M World A :=
  fun w => (Raise e, w, []).

Definition bind {World A B : Type}
  (m : M World A) (k : A -> M World B) : M World B :=
  fun w =>
    let '(r, w1, t1) := m w in
    match r with
    | Ok a => let '(r2, w2, t2) := k a w1 in (r2, w2, t1 ++ t2)
    | Raise e => (Raise e, w1, t1)
    end.

(** [try: m  except Exception as e: h e] *)
Definition try_except {World A : Type}
  (m : M World A) (h : PyExc -> M World A) : M World A :=
  fun w =>
    let '(r, w1, t1) := m w in
    match r with
    | Ok a => (Ok a, w1, t1)
    | Raise e => let '(r2, w2, t2) := h e w1 in (r2, w2, t1 ++ t2)
    end.

(** A collaborator call, recorded with its outcome. *)
Definition call {World A : Type}
  (ev : Res A -> Event) (f : World -> Res A * World) : M World A :=
  fun w => let '(r, w1) := f w in (r, w1, [ev r]).

(** A read of the world that cannot raise and is no collaborator call. *)
Definition draw {World A : Type} (f : World -> A * World) : M World A :=
  fun w => let '(a, w1) := f w in (Ok a, w1, []).

Declare Scope router_scope.
Delimit Scope router_scope with router.
Notation "x <- m ;; k" := (bind m (fun x => k))
  (at level 100, m at next level, right associativity) : router_scope.
Notation "m ;;; k" := (bind m (fun _ => k))
  (at level 100, right associativity) : router_scope.
Local Open Scope router_scope.

(** ** Python library functions the handlers use *)

(** [s.split(",")] *)
Fixpoint split_comma (s : string) : list string :=
  match s with
  | EmptyString => [EmptyString]
  | String c rest =>
      if Ascii.eqb c ","%char then EmptyString :: split_comma rest
      else
        match split_comma rest with
        | [] => [String c EmptyString]
        | piece :: pieces => String c piece :: pieces
        end
  end.

(** [random.choice(seq)]: an [IndexError] on an empty sequence, otherwise
    the element at an index below [len(seq)] drawn from the generator. *)
Definition random_choice {World : Type} (C : Collaborators World)
  (seq : list string) : M World string :=
  match seq with
  | [] => raise (IndexError "Cannot choose from an empty sequence")
  | first :: _ =>
      i <- draw (randbelow C (List.length seq)) ;;
      ret (nth (Nat.modulo i (List.length seq)) seq first)
  end.

(** [logger.debug], [logger.error] and [traceback.print_exc] write to the
    process log only. *)
Definition logger_debug {World : Type} (msg : string) : M World unit := ret tt.
Definition logger_error {World : Type} (msg : string) : M World unit := ret tt.
Definition traceback_print_exc {World : Type} : M World unit := ret tt.

(** f-string rendering of a [bool]. *)
Definition str_bool (b : bool) : string := if b then "True" else "False".

(** ** The handlers *)

Section Router.

Context {World : Type}.
Variable C : Collaborators World.

Local Abbreviation M := (M World).

(** [str(exc)] *)
Definition py_str (exc : PyExc) : string :=
  match exc with
  | HTTPException status_code detail => str_HTTPException C status_code detail
  | KeyError msg => msg
  | IndexError msg => msg
  | AttributeError msg => msg
  | Error _ _ msg => msg
  end.

(** [exc.status_code if hasattr(exc, "status_code") else 500] *)
Definition status_code_or_500 (exc : PyExc) : Z :=
  match status_code_attr exc with
  | Some status_code => status_code
  | None => 500
  end.

Definition permission_denied : string :=
  "You do not have permission to perform this action. Please contact your organization admin.".

Definition column_mismatch : string :=
  "columns in the test set should match the names of the inputs in the variant".

(** The block every handler runs on the answer of the authorization
    predicate: log it, and on a denial log the message and produce the
    403 response the handler returns at once. *)
Definition on_permission {A : Type} (what : string) (has_permission : bool)
  : M (option (Returned A)) :=
  logger_debug (what ++ str_bool has_permission) ;;;
  if negb has_permission then
    logger_error permission_denied ;;;
    ret (Some (JSONResponse permission_denied 403))
  else ret None.

Definition await_check_action_access (args : Access.t) : M bool :=
  call (Ev_check_action_access args) (check_action_access C args).

(** *** GET /by_resource/ *)

Definition fetch_evaluation_ids_body
  (app_id resource_type : string) (request : Request.t)
  (resource_ids : option (list string)) : M (Returned (list string)) :=
  denied <-
    (if isCloudEE C then
       has_permission <-
         await_check_action_access
           {| Access.user_uid := State.user_id (Request.state request);
              Access.project_id := Some (State.project_id (Request.state request));
              Access.permission := VIEW_EVALUATION;
              Access.object := None;
              Access.object_id := None;
              Access.object_type := None |} ;;
       on_permission "User has permission to get single evaluation: "
         has_permission
     else ret None) ;;
  match denied with
  | Some response => ret response
  | None =>
      evaluations <-
        call (Ev_fetch_evaluations_by_resource resource_type
                (State.project_id (Request.state request)) resource_ids)
             (db_manager_fetch_evaluations_by_resource C resource_type
                (State.project_id (Request.state request)) resource_ids) ;;
      ret (Body (map EvaluationDB.id evaluations))
  end.

Definition fetch_evaluation_ids
  (app_id resource_type : string) (request : Request.t)
  (resource_ids : option (list string)) : M (Returned (list string)) :=
  try_except
    (fetch_evaluation_ids_body app_id resource_type request resource_ids)
    (fun exc =>
       traceback_print_exc ;;;
       raise (HTTPException 500 (py_str exc))).

(** *** POST / *)

(** The keyword arguments [create_evaluation] passes to [evaluate.delay]
    for one variant and the evaluation created for it. *)
Definition evaluate_kwargs
  (payload : NewEvaluation.t) (request : Request.t)
  (variant_id : string) (evaluation : Evaluation.t) : EvaluateJob.t :=
  {| EvaluateJob.app_id := NewEvaluation.app_id payload;
     EvaluateJob.project_id := State.project_id (Request.state request);
     EvaluateJob.variant_id := variant_id;
     EvaluateJob.evaluators_config_ids :=
       NewEvaluation.evaluators_configs payload;
     EvaluateJob.testset_id := NewEvaluation.testset_id payload;
     EvaluateJob.evaluation_id := Evaluation.id evaluation;
     EvaluateJob.rate_limit_config :=
       PyDict (NewEvaluation.rate_limit payload);
     EvaluateJob.lm_providers_keys :=
       NewEvaluation.lm_providers_keys payload |}.

(** The [for variant_id in payload.variant_ids] loop; [evaluations] is the
    list built so far. *)
Fixpoint create_evaluation_loop
  (payload : NewEvaluation.t) (request : Request.t)
  (variant_ids : list string) (evaluations : list Evaluation.t)
  : M (list Evaluation.t) :=
  match variant_ids with
  | [] => ret evaluations
  | variant_id :: rest =>
      evaluation <-
        call (Ev_create_new_evaluation (NewEvaluation.app_id payload)
                (State.project_id (Request.state request)) variant_id
                (NewEvaluation.testset_id payload))
             (evaluation_service_create_new_evaluation C
                (NewEvaluation.app_id payload)
                (State.project_id (Request.state request)) variant_id
                (NewEvaluation.testset_id payload)) ;;
      (let job := evaluate_kwargs payload request variant_id evaluation in
       call (Ev_evaluate_delay job) (evaluate_delay C job)) ;;;
      create_evaluation_loop payload request rest (evaluations ++ [evaluation])
  end.

Definition create_evaluation_body
  (payload : NewEvaluation.t) (request : Request.t)
  : M (Returned (list Evaluation.t)) :=
  app <-
    call (Ev_fetch_app_by_id (NewEvaluation.app_id payload)
            (State.project_id (Request.state request)))
         (db_manager_fetch_app_by_id C (NewEvaluation.app_id payload)
            (State.project_id (Request.state request))) ;;
  match app with
  | None => raise (HTTPException 404 "App not found")
  | Some _ =>
      denied <-
        (if isCloudEE C then
           has_permission <-
             await_check_action_access
               {| Access.user_uid := State.user_id (Request.state request);
                  Access.project_id :=
                    Some (State.project_id (Request.state request));
                  Access.permission := CREATE_EVALUATION;
                  Access.object := None;
                  Access.object_id := None;
                  Access.object_type := None |} ;;
           on_permission "User has permission to create evaluation: "
             has_permission
         else ret None) ;;
      match denied with
      | Some response => ret response
      | None =>
          checked <-
            call (Ev_check_ai_critique_inputs
                    (NewEvaluation.evaluators_configs payload)
                    (NewEvaluation.lm_providers_keys payload))
                 (check_ai_critique_inputs C
                    (NewEvaluation.evaluators_configs payload)
                    (NewEvaluation.lm_providers_keys payload)) ;;
          let '(success, response) := checked in
          if negb success then ret (Forwarded response)
          else
            evaluations <-
              create_evaluation_loop payload request
                (NewEvaluation.variant_ids payload) [] ;;
            call (Ev_update_last_modified_by
                    (State.user_id (Request.state request))
                    (NewEvaluation.app_id payload) "app"
                    (State.project_id (Request.state request)))
                 (app_manager_update_last_modified_by C
                    (State.user_id (Request.state request))
                    (NewEvaluation.app_id payload) "app"
                    (State.project_id (Request.state request))) ;;;
            logger_debug
              "Successfully updated last_modified_by app information" ;;;
            ret (Body evaluations)
      end
  end.

Definition create_evaluation
  (payload : NewEvaluation.t) (request : Request.t)
  : M (Returned (list Evaluation.t)) :=
  try_except (create_evaluation_body payload request)
    (fun e =>
       match e with
       | KeyError _ => raise (HTTPException 400 column_mismatch)
       | _ =>
           traceback_print_exc ;;;
           let status_code := status_code_or_500 e in
           raise (HTTPException status_code (py_str e))
       end).

(** *** GET /{evaluation_id}/status/ *)

(** [evaluation.attr] on what [fetch_evaluation_by_id] returned: reading
    an attribute of [None] raises [AttributeError]. *)
Definition getattr_evaluation {A : Type}
  (evaluation : option EvaluationDB.t) (attr : string)
  (get : EvaluationDB.t -> A) : M A :=
  match evaluation with
  | Some e => ret (get e)
  | None =>
      raise (AttributeError
               ("'NoneType' object has no attribute '" ++ attr ++ "'"))
  end.

Definition fetch_evaluation_status_body
  (evaluation_id : string) (request : Request.t) : M (Returned PyValue) :=
  evaluation <-
    call (Ev_fetch_evaluation_by_id evaluation_id
            (State.project_id (Request.state request)))
         (db_manager_fetch_evaluation_by_id C evaluation_id
            (State.project_id (Request.state request))) ;;
  denied <-
    (if isCloudEE C then
       has_permission <-
         await_check_action_access
           {| Access.user_uid := State.user_id (Request.state request);
              Access.project_id := None;
              Access.permission := VIEW_EVALUATION;
              Access.object := option_map ObjEvaluation evaluation;
              Access.object_id := None;
              Access.object_type := None |} ;;
       on_permission "User has permission to fetch evaluation status: "
         has_permission
     else ret None) ;;
  match denied with
  | Some response => ret response
  | None =>
      status <- getattr_evaluation evaluation "status" EvaluationDB.status ;;
      ret (Body (PyDict [("status", status)]))
  end.

Definition fetch_evaluation_status
  (evaluation_id : string) (request : Request.t) : M (Returned PyValue) :=
  try_except (fetch_evaluation_status_body evaluation_id request)
    (fun exc => raise (HTTPException 500 (py_str exc))).

(** *** GET /{evaluation_id}/results/ *)

Definition fetch_evaluation_results_body
  (evaluation_id : string) (request : Request.t) : M (Returned PyValue) :=
  evaluation <-
    call (Ev_fetch_evaluation_by_id evaluation_id
            (State.project_id (Request.state request)))
         (db_manager_fetch_evaluation_by_id C evaluation_id
            (State.project_id (Request.state request))) ;;
  denied <-
    (if isCloudEE C then
       has_permission <-
         await_check_action_access
           {| Access.user_uid := State.user_id (Request.state request);
              Access.project_id := None;
              Access.permission := VIEW_EVALUATION;
              Access.object := option_map ObjEvaluation evaluation;
              Access.object_id := None;
              Access.object_type := None |} ;;
       on_permission "User has permission to get evaluation results: "
         has_permission
     else ret None) ;;
  match denied with
  | Some response => ret response
  | None =>
      aggregated_results <-
        getattr_evaluation evaluation "aggregated_results"
          EvaluationDB.aggregated_results ;;
      results <-
        call (Ev_aggregated_result_of_evaluation_to_pydantic
                aggregated_results)
             (converters_aggregated_result_of_evaluation_to_pydantic C
                aggregated_results) ;;
      ret (Body (PyDict [("results", results);
                         ("evaluation_id", PyStr evaluation_id)]))
  end.

Definition fetch_evaluation_results
  (evaluation_id : string) (request : Request.t) : M (Returned PyValue) :=
  try_except (fetch_evaluation_results_body evaluation_id request)
    (fun exc => raise (HTTPException 500 (py_str exc))).

(** *** GET /{evaluation_id}/evaluation_scenarios/ *)

Definition fetch_evaluation_scenarios_body
  (evaluation_id : string) (request : Request.t) : M (Returned PyValue) :=
  found <-
    call (Ev_fetch_evaluation_by_id evaluation_id
            (State.project_id (Request.state request)))
         (db_manager_fetch_evaluation_by_id C evaluation_id
            (State.project_id (Request.state request))) ;;
  match found with
  | None =>
      raise (HTTPException 404
               ("Evaluation with id " ++ evaluation_id ++ " not found"))
  | Some evaluation =>
      denied <-
        (if isCloudEE C then
           has_permission <-
             await_check_action_access
               {| Access.user_uid := State.user_id (Request.state request);
                  Access.project_id := None;
                  Access.permission := VIEW_EVALUATION;
                  Access.object := Some (ObjEvaluation evaluation);
                  Access.object_id := None;
                  Access.object_type := None |} ;;
           on_permission "User has permission to get evaluation scenarios: "
             has_permission
         else ret None) ;;
      match denied with
      | Some response => ret response
      | None =>
          eval_scenarios <-
            call (Ev_fetch_evaluation_scenarios_for_evaluation
                    (EvaluationDB.id evaluation)
                    (State.project_id (Request.state request)))
                 (evaluation_service_fetch_evaluation_scenarios_for_evaluation
                    C (EvaluationDB.id evaluation)
                    (State.project_id (Request.state request))) ;;
          ret (Body eval_scenarios)
      end
  end.

Definition fetch_evaluation_scenarios
  (evaluation_id : string) (request : Request.t) : M (Returned PyValue) :=
  try_except (fetch_evaluation_scenarios_body evaluation_id request)
    (fun exc =>
       traceback_print_exc ;;;
       let status_code := status_code_or_500 exc in
       raise (HTTPException status_code (py_str exc))).

(** *** GET / *)

Definition fetch_list_evaluations_body
  (app_id : string) (request : Request.t)
  : M (Returned (list Evaluation.t)) :=
  app <-
    call (Ev_fetch_app_by_id app_id
            (State.project_id (Request.state request)))
         (db_manager_fetch_app_by_id C app_id
            (State.project_id (Request.state request))) ;;
  denied <-
    (if isCloudEE C then
       has_permission <-
         await_check_action_access
           {| Access.user_uid := State.user_id (Request.state request);
              Access.project_id := None;
              Access.permission := VIEW_EVALUATION;
              Access.object := option_map ObjApp app;
              Access.object_id := None;
              Access.object_type := None |} ;;
       on_permission "User has permission to get list of evaluations: "
         has_permission
     else ret None) ;;
  match denied with
  | Some response => ret response
  | None =>
      evaluations <-
        call (Ev_fetch_list_evaluations app
                (State.project_id (Request.state request)))
             (evaluation_service_fetch_list_evaluations C app
                (State.project_id (Request.state request))) ;;
      ret (Body evaluations)
  end.

Definition fetch_list_evaluations
  (app_id : string) (request : Request.t)
  : M (Returned (list Evaluation.t)) :=
  try_except (fetch_list_evaluations_body app_id request)
    (fun exc =>
       traceback_print_exc ;;;
       let status_code := status_code_or_500 exc in
       raise (HTTPException status_code
                ("Could not retrieve evaluation results: " ++ py_str exc))).

(** *** GET /{evaluation_id}/ *)

Definition fetch_evaluation_body
  (evaluation_id : string) (request : Request.t) : M (Returned PyValue) :=
  found <-
    call (Ev_fetch_evaluation_by_id evaluation_id
            (State.project_id (Request.state request)))
         (db_manager_fetch_evaluation_by_id C evaluation_id
            (State.project_id (Request.state request))) ;;
  match found with
  | None =>
      raise (HTTPException 404
               ("Evaluation with id " ++ evaluation_id ++ " not found"))
  | Some evaluation =>
      denied <-
        (if isCloudEE C then
           has_permission <-
             await_check_action_access
               {| Access.user_uid := State.user_id (Request.state request);
                  Access.project_id := None;
                  Access.permission := VIEW_EVALUATION;
                  Access.object := None;
                  Access.object_id := Some evaluation_id;
                  Access.object_type := Some "evaluation" |} ;;
           on_permission "User has permission to get single evaluation: "
             has_permission
         else ret None) ;;
      match denied with
      | Some response => ret response
      | None =>
          converted <-
            call (Ev_evaluation_db_to_pydantic evaluation)
                 (converters_evaluation_db_to_pydantic C evaluation) ;;
          ret (Body converted)
      end
  end.

Definition fetch_evaluation
  (evaluation_id : string) (request : Request.t) : M (Returned PyValue) :=
  try_except (fetch_evaluation_body evaluation_id request)
    (fun exc =>
       let status_code := status_code_or_500 exc in
       raise (HTTPException status_code (py_str exc))).

(** *** DELETE / *)

Definition HTTP_204_NO_CONTENT : Z := 204.

(** The check [delete_evaluations] issues for the id it selected. *)
Definition delete_access (request : Request.t) (evaluation_id : string)
  : Access.t :=
  {| Access.user_uid := State.user_id (Request.state request);
     Access.project_id := None;
     Access.permission := DELETE_EVALUATION;
     Access.object := None;
     Access.object_id := Some evaluation_id;
     Access.object_type := Some "evaluation" |}.

Definition delete_evaluations_body
  (payload : DeleteEvaluation.t) (request : Request.t)
  : M (Returned (list string)) :=
  denied <-
    (if isCloudEE C then
       evaluation_id <-
         random_choice C (DeleteEvaluation.evaluations_ids payload) ;;
       has_permission <-
         await_check_action_access (delete_access request evaluation_id) ;;
       on_permission "User has permission to delete evaluation: "
         has_permission
     else ret None) ;;
  match denied with
  | Some response => ret response
  | None =>
      object_id <-
        random_choice C (DeleteEvaluation.evaluations_ids payload) ;;
      call (Ev_update_last_modified_by
              (State.user_id (Request.state request)) object_id "evaluation"
              (State.project_id (Request.state request)))
           (app_manager_update_last_modified_by C
              (State.user_id (Request.state request)) object_id "evaluation"
              (State.project_id (Request.state request))) ;;;
      logger_debug "Successfully updated last_modified_by app information" ;;;
      call (Ev_delete_evaluations (DeleteEvaluation.evaluations_ids payload)
              (State.project_id (Request.state request)))
           (evaluation_service_delete_evaluations C
              (DeleteEvaluation.evaluations_ids payload)
              (State.project_id (Request.state request))) ;;;
      ret (Response None HTTP_204_NO_CONTENT)
  end.

Definition delete_evaluations
  (payload : DeleteEvaluation.t) (request : Request.t)
  : M (Returned (list string)) :=
  try_except (delete_evaluations_body payload request)
    (fun exc => raise (HTTPException 500 (py_str exc))).

(** *** GET /evaluation_scenarios/comparison-results/

    The source names this handler [fetch_evaluation_scenarios] a second
    time; the route is what tells the two apart. *)

Definition comparison_access (request : Request.t) (evaluation_id : string)
  : Access.t :=
  {| Access.user_uid := State.user_id (Request.state request);
     Access.project_id := None;
     Access.permission := VIEW_EVALUATION;
     Access.object := None;
     Access.object_id := Some evaluation_id;
     Access.object_type := Some "evaluation" |}.

(** The [for evaluation_id in evaluations_ids_list] loop; [Some response]
    when an iteration returns from the handler. *)
Fixpoint comparison_check_loop {A : Type}
  (request : Request.t) (evaluations_ids_list : list string)
  : M (option (Returned A)) :=
  match evaluations_ids_list with
  | [] => ret None
  | evaluation_id :: rest =>
      has_permission <-
        await_check_action_access (comparison_access request evaluation_id) ;;
      denied <-
        on_permission "User has permission to get evaluation scenarios: "
          has_permission ;;
      match denied with
      | Some response => ret (Some response)
      | None => comparison_check_loop request rest
      end
  end.

Definition fetch_evaluation_scenarios_comparison_body
  (evaluations_ids : string) (request : Request.t) : M (Returned PyValue) :=
  let evaluations_ids_list := split_comma evaluations_ids in
  denied <-
    (if isCloudEE C then comparison_check_loop request evaluations_ids_list
     else ret None) ;;
  match denied with
  | Some response => ret response
  | None =>
      eval_scenarios <-
        call (Ev_compare_evaluations_scenarios evaluations_ids_list
                (State.project_id (Request.state request)))
             (evaluation_service_compare_evaluations_scenarios C
                evaluations_ids_list
                (State.project_id (Request.state request))) ;;
      ret (Body eval_scenarios)
  end.

Definition fetch_evaluation_scenarios_comparison
  (evaluations_ids : string) (request : Request.t) : M (Returned PyValue) :=
  try_except (fetch_evaluation_scenarios_comparison_body evaluations_ids request)
    (fun exc => raise (HTTPException 500 (py_str exc))).

End Router.

(** ** Reading a run *)

(** The HTTP status the framework answers with: that of a raised
    [HTTPException], that of a returned response object, and the default 200
    for a returned value (no route declares another).  A forwarded response
    carries a status the router does not decide. *)
Definition http_status {A : Type} (r : Res (Returned A)) : option Z :=
  match r with
  | Raise (HTTPException status_code _) => Some status_code
  | Raise _ => None
  | Ok (JSONResponse _ status_code) => Some status_code
  | Ok (Response _ status_code) => Some status_code
  | Ok (Forwarded _) => None
  | Ok (Body _) => Some 200
  end.

(** The body the framework sends for a [Response] object. *)
Definition response_body (content : option string) : string :=
  match content with
  | Some body => body
  | None => ""
  end.

(** The [check_action_access] calls of a trace, in order. *)
Fixpoint access_checks (t : list Event) : list (Access.t * Res bool) :=
  match t with
  | [] => []
  | Ev_check_action_access args r :: rest => (args, r) :: access_checks rest
  | _ :: rest => access_checks rest
  end.

(** The [create_new_evaluation] calls of a trace: variant id and outcome. *)
Fixpoint create_calls (t : list Event) : list (string * Res Evaluation.t) :=
  match t with
  | [] => []
  | Ev_create_new_evaluation _ _ variant_id _ r :: rest =>
      (variant_id, r) :: create_calls rest
  | _ :: rest => create_calls rest
  end.

(** The [evaluate.delay] calls of a trace. *)
Fixpoint enqueued (t : list Event) : list (EvaluateJob.t * Res unit) :=
  match t with
  | [] => []
  | Ev_evaluate_delay job r :: rest => (job, r) :: enqueued rest
  | _ :: rest => enqueued rest
  end.

(** The [evaluation_service.delete_evaluations] calls of a trace. *)
Fixpoint delete_calls (t : list Event) : list (list string * string * Res unit) :=
  match t with
  | [] => []
  | Ev_delete_evaluations ids project_id r :: rest =>
      (ids, project_id, r) :: delete_calls rest
  | _ :: rest => delete_calls rest
  end.

(** Some authorization check of the trace answered [False]. *)
Definition access_denied (t : list Event) : Prop :=
  exists args, In (args, Ok false) (access_checks t).

(** Some collaborator call of the trace raised [exc]. *)
Definition raised_in (t : list Event) (exc : PyExc) : Prop :=
  In (Some exc) (map event_exception t).

(** *** The calls of the per-variant loop of [create_evaluation] *)

Definition created_event
  (payload : NewEvaluation.t) (request : Request.t)
  (variant_id : string) (r : Res Evaluation.t) : Event :=
  Ev_create_new_evaluation (NewEvaluation.app_id payload)
    (State.project_id (Request.state request)) variant_id
    (NewEvaluation.testset_id payload) r.

(** The two calls of an iteration that completes: the evaluation is created
    and its job is enqueued. *)
Definition iteration_events
  (payload : NewEvaluation.t) (request : Request.t)
  (p : string * Evaluation.t) : list Event :=
  [ created_event payload request (fst p) (Ok (snd p));
    Ev_evaluate_delay (evaluate_kwargs payload request (fst p) (snd p)) (Ok tt) ].

(** The calls of completed iterations; [done] pairs each variant id with
    the evaluation created for it. *)
Definition loop_events
  (payload : NewEvaluation.t) (request : Request.t)
  (done : list (string * Evaluation.t)) : list Event :=
  flat_map (iteration_events payload request) done.

(** The calls of an iteration that raises [exc]: either the creation raises,
    or the creation succeeds and the enqueue raises. *)
Definition failing_iteration
  (payload : NewEvaluation.t) (request : Request.t)
  (variant_id : string) (exc : PyExc) (failing : list Event) : Prop :=
  failing = [created_event payload request variant_id (Raise exc)]
  \/ exists evaluation,
       failing =
         [ created_event payload request variant_id (Ok evaluation);
           Ev_evaluate_delay
             (evaluate_kwargs payload request variant_id evaluation)
             (Raise exc) ].

(** The check the comparison handler issues for one id, answered [True]. *)
Definition granted_event (request : Request.t) (evaluation_id : string) : Event :=
  Ev_check_action_access (comparison_access request evaluation_id) (Ok true).

(** The [create_new_evaluation] calls of completed iterations. *)
Definition created_ok (p : string * Evaluation.t) : string * Res Evaluation.t :=
  (fst p, Ok (snd p)).

(** The [evaluate.delay] calls of completed iterations. *)
Definition enqueued_ok
  (payload : NewEvaluation.t) (request : Request.t)
  (p : string * Evaluation.t) : EvaluateJob.t * Res unit :=
  (evaluate_kwargs payload request (fst p) (snd p), Ok tt).

(** ** The properties, as predicates on handlers *)

Section Statements.

Context {World : Type}.
Variable C : Collaborators World.

(** A handler answers a denial with the fixed 403 response. *)
Definition denial_is_403 {A : Type} (m : M World (Returned A)) : Prop :=
  forall w,
    access_denied (trace (m w)) ->
    result (m w) = Ok (JSONResponse permission_denied 403).

(** The HTTP errors the [except] clauses build from an exception. *)
Definition internal_error (exc : PyExc) : PyExc :=
  HTTPException 500 (py_str C exc).

Definition own_status_error (exc : PyExc) : PyExc :=
  HTTPException (status_code_or_500 exc) (py_str C exc).

Definition list_error (exc : PyExc) : PyExc :=
  HTTPException (status_code_or_500 exc)
    ("Could not retrieve evaluation results: " ++ py_str C exc).

Definition create_error (exc : PyExc) : PyExc :=
  match exc with
  | KeyError _ => HTTPException 400 column_mismatch
  | _ => own_status_error exc
  end.

(** Every exception that escapes [body] leaves [handler] as the HTTP
    error [convert] builds from it, with no further collaborator call. *)
Definition converts {A : Type}
  (body handler : M World (Returned A)) (convert : PyExc -> PyExc) : Prop :=
  forall w exc,
    result (body w) = Raise exc ->
    handler w = (Raise (convert exc), world (body w), trace (body w)).

(** The claim as the specification words it: whatever escapes the body
    becomes status 500 with the exception's message as detail. *)
Definition always_500 {A : Type} (body handler : M World (Returned A)) : Prop :=
  forall w exc,
    result (body w) = Raise exc ->
    result (handler w) = Raise (HTTPException 500 (py_str C exc)).

Definition is_granted (check : Access.t * Res bool) : Prop :=
  snd check = Ok true.

End Statements.

(** ** More readings of a run *)

(** The last call of a trace. *)
Definition last_event (t : list Event) : option Event := hd_error (rev t).

(** The exceptions the calls of a trace raised, in order. *)
Fixpoint raising (t : list Event) : list PyExc :=
  match t with
  | [] => []
  | ev :: rest =>
      match event_exception ev with
      | Some exc => exc :: raising rest
      | None => raising rest
      end
  end.

(** The [app_manager.update_last_modified_by] calls of a trace. *)
Fixpoint update_calls (t : list Event)
  : list (string * string * string * string * Res unit) :=
  match t with
  | [] => []
  | Ev_update_last_modified_by user_uid object_id object_type project_id r
    :: rest =>
      (user_uid, object_id, object_type, project_id, r) :: update_calls rest
  | _ :: rest => update_calls rest
  end.


(** A check asks [permission] on behalf of [user_uid]. *)
Definition asks (permission : Permission) (user_uid : string)
  (check : Access.t * Res bool) : Prop :=
  Access.permission (fst check) = permission
  /\ Access.user_uid (fst check) = user_uid.

(** [",".join(pieces)] *)
Fixpoint join_comma (pieces : list string) : string :=
  match pieces with
  | [] => ""
  | piece :: rest =>
      match rest with
      | [] => piece
      | _ :: _ => piece ++ "," ++ join_comma rest
      end
  end.

Fixpoint count_commas (s : string) : nat :=
  match s with
  | EmptyString => 0
  | String c rest =>
      if Ascii.eqb c ","%char then S (count_commas rest)
      else count_commas rest
  end.

(** The outcomes of the [check_ai_critique_inputs] calls of a trace. *)
Fixpoint critique_calls (t : list Event) : list (Res (bool * PyValue)) :=
  match t with
  | [] => []
  | Ev_check_ai_critique_inputs _ _ r :: rest => r :: critique_calls rest
  | _ :: rest => critique_calls rest
  end.

(** *** Further properties, as predicates on handlers *)

Section MoreStatements.

Context {World : Type}.

(** At least one check was issued and every check issued was granted. *)
Definition granted_throughout (t : list Event) : Prop :=
  access_checks t <> [] /\ Forall is_granted (access_checks t).

(** Whatever the handler returns, apart from the denial itself, it returns
    after a granted check. *)
Definition returns_only_if_granted {A : Type} (m : M World (Returned A))
  : Prop :=
  forall w response,
    result (m w) = Ok response ->
    response <> JSONResponse permission_denied 403 ->
    granted_throughout (trace (m w)).

(** A denied check is the last call the handler makes. *)
Definition denial_ends {A : Type} (m : M World (Returned A)) : Prop :=
  forall w args,
    In (args, Ok false) (access_checks (trace (m w))) ->
    last_event (trace (m w)) = Some (Ev_check_action_access args (Ok false)).

(** A call that raises is the only one that does and the last call the
    handler makes, and the handler raises an HTTP error. *)
Definition failure_ends {A : Type} (m : M World (Returned A)) : Prop :=
  forall w exc,
    In exc (raising (trace (m w))) ->
    raising (trace (m w)) = [exc]
    /\ (exists ev,
           last_event (trace (m w)) = Some ev
           /\ event_exception ev = Some exc)
    /\ exists status_code detail,
         result (m w) = Raise (HTTPException status_code detail).

(** The handler always answers, with one of the [allowed] statuses. *)
Definition status_among {A : Type} (allowed : list Z)
  (m : M World (Returned A)) : Prop :=
  forall w,
    exists status_code,
      http_status (result (m w)) = Some status_code
      /\ In status_code allowed.

(** Every check the handler issues asks [permission] for the user of the
    request. *)
Definition checks_ask {A : Type} (permission : Permission)
  (request : Request.t) (m : M World (Returned A)) : Prop :=
  forall w,
    Forall (asks permission (State.user_id (Request.state request)))
      (access_checks (trace (m w))).

End MoreStatements.

(** ** A concrete deployment

    An in-memory stand-in for the collaborators, on which the handlers are
    run: apps and evaluations are lists, the task queue is a list of jobs,
    the authorization predicate is a given policy.  The evaluation service
    raises [KeyError] for the variant ["unknown-columns"], the task queue
    refuses the variant ["broken"]. *)
Module Sim.

Record World : Type :=
  { apps : list AppDB.t;
    evaluations : list EvaluationDB.t;
    jobs : list EvaluateJob.t;
    seed : nat }.

Definition find_app (app_id : string) (w : World) : option AppDB.t :=
  find (fun a => String.eqb (AppDB.id a) app_id) (apps w).

Definition find_evaluation (evaluation_id : string) (w : World)
  : option EvaluationDB.t :=
  find (fun e => String.eqb (EvaluationDB.id e) evaluation_id)
    (evaluations w).

Definition new_evaluation (variant_id : string) : Evaluation.t :=
  {| Evaluation.id := "evaluation-of-" ++ variant_id;
     Evaluation.fields := PyDict [("variant_id", PyStr variant_id)] |}.

Definition stored (e : Evaluation.t) : EvaluationDB.t :=
  {| EvaluationDB.id := Evaluation.id e;
     EvaluationDB.status := PyStr "EVALUATION_STARTED";
     EvaluationDB.aggregated_results := PyList [] |}.

Definition create_new_evaluation
  (app_id project_id variant_id testset_id : string) (w : World)
  : Res Evaluation.t * World :=
  if String.eqb variant_id "unknown-columns" then
    (Raise (KeyError "'country'"), w)
  else
    (Ok (new_evaluation variant_id),
     {| apps := apps w;
        evaluations := evaluations w ++ [stored (new_evaluation variant_id)];
        jobs := jobs w;
        seed := seed w |}).

Definition enqueue (job : EvaluateJob.t) (w : World) : Res unit * World :=
  if String.eqb (EvaluateJob.variant_id job) "broken" then
    (Raise (Error "OperationalError" None "queue unavailable"), w)
  else
    (Ok tt,
     {| apps := apps w;
        evaluations := evaluations w;
        jobs := jobs w ++ [job];
        seed := seed w |}).

Definition delete (ids : list string) (project_id : string) (w : World)
  : Res unit * World :=
  (Ok tt,
   {| apps := apps w;
      evaluations :=
        filter (fun e => negb (existsb (String.eqb (EvaluationDB.id e)) ids))
          (evaluations w);
      jobs := jobs w;
      seed := seed w |}).

Definition next_random (bound : nat) (w : World) : nat * World :=
  (seed w,
   {| apps := apps w;
      evaluations := evaluations w;
      jobs := jobs w;
      seed := S (seed w) |}).

Definition collaborators (cloud : bool) (policy : Access.t -> bool)
  : Collaborators World :=
  {| isCloudEE := cloud;
     str_HTTPException := fun status_code detail => detail;
     randbelow := next_random;
     check_action_access := fun args w => (Ok (policy args), w);
     check_ai_critique_inputs := fun _ _ w => (Ok (true, PyNone), w);
     evaluate_delay := enqueue;
     db_manager_fetch_evaluations_by_resource :=
       fun _ _ _ w => (Ok (evaluations w), w);
     db_manager_fetch_app_by_id :=
       fun app_id _ w => (Ok (find_app app_id w), w);
     db_manager_fetch_evaluation_by_id :=
       fun evaluation_id _ w => (Ok (find_evaluation evaluation_id w), w);
     app_manager_update_last_modified_by := fun _ _ _ _ w => (Ok tt, w);
     converters_aggregated_result_of_evaluation_to_pydantic :=
       fun aggregated w => (Ok aggregated, w);
     converters_evaluation_db_to_pydantic :=
       fun e w => (Ok (PyDict [("id", PyStr (EvaluationDB.id e))]), w);
     evaluation_service_create_new_evaluation := create_new_evaluation;
     evaluation_service_fetch_evaluation_scenarios_for_evaluation :=
       fun _ _ w => (Ok (PyList []), w);
     evaluation_service_fetch_list_evaluations :=
       fun _ _ w => (Ok [], w);
     evaluation_service_delete_evaluations := delete;
     evaluation_service_compare_evaluations_scenarios :=
       fun _ _ w => (Ok (PyList []), w) |}.

(** Deployments: the open-source one, and the cloud one under a policy
    that grants everything or nothing. *)
Definition oss : Collaborators World := collaborators false (fun _ => true).
Definition cloud_granting : Collaborators World :=
  collaborators true (fun _ => true).
Definition cloud_denying : Collaborators World :=
  collaborators true (fun _ => false).

Definition request : Request.t :=
  {| Request.state :=
       {| State.user_id := "user-1"; State.project_id := "project-1" |} |}.

(** A world with one app and two evaluations. *)
Definition w0 : World :=
  {| apps := [ {| AppDB.id := "app-1"; AppDB.fields := PyNone |} ];
     evaluations := [ stored (new_evaluation "a");
                      stored (new_evaluation "b") ];
     jobs := [];
     seed := 4 |}.

Definition new_payload (variant_ids : list string) : NewEvaluation.t :=
  {| NewEvaluation.app_id := "app-1";
     NewEvaluation.variant_ids := variant_ids;
     NewEvaluation.evaluators_configs := ["exact-match"];
     NewEvaluation.testset_id := "testset-1";
     NewEvaluation.rate_limit := [("batch_size", PyInt 10)];
     NewEvaluation.lm_providers_keys := PyNone |}.

Definition delete_payload (ids : list string) : DeleteEvaluation.t :=
  {| DeleteEvaluation.evaluations_ids := ids |}.

End Sim.

(** A variant of the open-source deployment whose
    [check_ai_critique_inputs] rejects every request with a response of
    its own. *)
Module SimStrict.

Definition rejection : PyValue :=
  PyDict [("detail", PyStr "missing provider key"); ("status_code", PyInt 400)].

Definition collaborators : Collaborators Sim.World :=
  {| isCloudEE := isCloudEE Sim.oss;
     str_HTTPException := str_HTTPException Sim.oss;
     randbelow := randbelow Sim.oss;
     check_action_access := check_action_access Sim.oss;
     check_ai_critique_inputs := fun _ _ w => (Ok (false, rejection), w);
     evaluate_delay := evaluate_delay Sim.oss;
     db_manager_fetch_evaluations_by_resource :=
       db_manager_fetch_evaluations_by_resource Sim.oss;
     db_manager_fetch_app_by_id := db_manager_fetch_app_by_id Sim.oss;
     db_manager_fetch_evaluation_by_id :=
       db_manager_fetch_evaluation_by_id Sim.oss;
     app_manager_update_last_modified_by :=
       app_manager_update_last_modified_by Sim.oss;
     converters_aggregated_result_of_evaluation_to_pydantic :=
       converters_aggregated_result_of_evaluation_to_pydantic Sim.oss;
     converters_evaluation_db_to_pydantic :=
       converters_evaluation_db_to_pydantic Sim.oss;
     evaluation_service_create_new_evaluation :=
       evaluation_service_create_new_evaluation Sim.oss;
     evaluation_service_fetch_evaluation_scenarios_for_evaluation :=
       evaluation_service_fetch_evaluation_scenarios_for_evaluation Sim.oss;
     evaluation_service_fetch_list_evaluations :=
       evaluation_service_fetch_list_evaluations Sim.oss;
     evaluation_service_delete_evaluations :=
       evaluation_service_delete_evaluations Sim.oss;
     evaluation_service_compare_evaluations_scenarios :=
       evaluation_service_compare_evaluations_scenarios Sim.oss |}.

End SimStrict.

(** ** Lemmas on traces *)

Lemma access_checks_app (t1 t2 : list Event) :
  access_checks (t1 ++ t2) = access_checks t1 ++ access_checks t2.
Proof.
  induction t1 as [|ev t1 IH]; simpl; [reflexivity|].
  destruct ev; simpl; rewrite ?IH; reflexivity.
Qed.

Lemma create_calls_app (t1 t2 : list Event) :
  create_calls (t1 ++ t2) = create_calls t1 ++ create_calls t2.
Proof.
  induction t1 as [|ev t1 IH]; simpl; [reflexivity|].
  destruct ev; simpl; rewrite ?IH; reflexivity.
Qed.

Lemma enqueued_app (t1 t2 : list Event) :
  enqueued (t1 ++ t2) = enqueued t1 ++ enqueued t2.
Proof.
  induction t1 as [|ev t1 IH]; simpl; [reflexivity|].
  destruct ev; simpl; rewrite ?IH; reflexivity.
Qed.

Lemma delete_calls_app (t1 t2 : list Event) :
  delete_calls (t1 ++ t2) = delete_calls t1 ++ delete_calls t2.
Proof.
  induction t1 as [|ev t1 IH]; simpl; [reflexivity|].
  destruct ev; simpl; rewrite ?IH; reflexivity.
Qed.

Lemma split_comma_nonempty (s : string) : split_comma s <> [].
Proof.
  destruct s as [|c rest]; simpl; [discriminate|].
  destruct (Ascii.eqb c ","%char); [discriminate|].
  destruct (split_comma rest); discriminate.
Qed.

Lemma access_checks_loop_events
  (payload : NewEvaluation.t) (request : Request.t)
  (done : list (string * Evaluation.t)) :
  access_checks (loop_events payload request done) = [].
Proof.
  induction done as [|p done IH]; cbn; [reflexivity|]. exact IH.
Qed.

Lemma access_checks_failing_iteration
  (payload : NewEvaluation.t) (request : Request.t)
  (variant_id : string) (exc : PyExc) (failing : list Event) :
  failing_iteration payload request variant_id exc failing ->
  access_checks failing = [].
Proof.
  intros [H|[evaluation H]]; subst; reflexivity.
Qed.

Lemma access_checks_granted (request : Request.t) (ids : list string) :
  access_checks (map (granted_event request) ids)
  = map (fun evaluation_id => (comparison_access request evaluation_id, Ok true))
        ids.
Proof.
  induction ids as [|evaluation_id ids IH]; cbn; [reflexivity|].
  rewrite IH. reflexivity.
Qed.

Lemma not_denied_granted (request : Request.t) (ids : list string)
  (args : Access.t) :
  ~ In (args, Ok false) (access_checks (map (granted_event request) ids)).
Proof.
  rewrite access_checks_granted. intros H.
  apply in_map_iff in H. destruct H as (evaluation_id & H & _). discriminate.
Qed.

Lemma no_exception_loop_events
  (payload : NewEvaluation.t) (request : Request.t)
  (done : list (string * Evaluation.t)) (exc : PyExc) :
  ~ In (Some exc) (map event_exception (loop_events payload request done)).
Proof.
  induction done as [|p done IH]; cbn; [tauto|].
  intros [H|[H|H]]; try discriminate. exact (IH H).
Qed.

Lemma exception_failing_iteration
  (payload : NewEvaluation.t) (request : Request.t)
  (variant_id : string) (exc exc' : PyExc) (failing : list Event) :
  failing_iteration payload request variant_id exc failing ->
  In (Some exc') (map event_exception failing) -> exc' = exc.
Proof.
  intros [H|[evaluation H]]; subst; cbn; intuition congruence.
Qed.

Lemma create_calls_loop_events
  (payload : NewEvaluation.t) (request : Request.t)
  (done : list (string * Evaluation.t)) :
  create_calls (loop_events payload request done) = map created_ok done.
Proof.
  unfold loop_events.
  induction done as [|p done IH]; cbn; [reflexivity|].
  rewrite IH. reflexivity.
Qed.

Lemma enqueued_loop_events
  (payload : NewEvaluation.t) (request : Request.t)
  (done : list (string * Evaluation.t)) :
  enqueued (loop_events payload request done)
  = map (enqueued_ok payload request) done.
Proof.
  unfold loop_events.
  induction done as [|p done IH]; cbn; [reflexivity|].
  rewrite IH. reflexivity.
Qed.

Lemma delete_calls_loop_events
  (payload : NewEvaluation.t) (request : Request.t)
  (done : list (string * Evaluation.t)) :
  delete_calls (loop_events payload request done) = [].
Proof.
  induction done as [|p done IH]; cbn; [reflexivity|]. exact IH.
Qed.

Lemma delete_calls_failing_iteration
  (payload : NewEvaluation.t) (request : Request.t)
  (variant_id : string) (exc : PyExc) (failing : list Event) :
  failing_iteration payload request variant_id exc failing ->
  delete_calls failing = [].
Proof.
  intros [H|[evaluation H]]; subst; reflexivity.
Qed.

Lemma combine_fst_snd (A B : Type) (l : list (A * B)) :
  combine (map fst l) (map snd l) = l.
Proof.
  induction l as [|[a b] l IH]; cbn; [reflexivity|]. rewrite IH. reflexivity.
Qed.

Lemma no_raise_created_ok
  (done : list (string * Evaluation.t)) (variant_id : string) (exc : PyExc) :
  ~ In (variant_id, Raise exc) (map created_ok done).
Proof.
  intros H. apply in_map_iff in H. destruct H as (p & H & _). discriminate.
Qed.

Lemma no_raise_enqueued_ok
  (payload : NewEvaluation.t) (request : Request.t)
  (done : list (string * Evaluation.t)) (job : EvaluateJob.t) (exc : PyExc) :
  ~ In (job, Raise exc) (map (enqueued_ok payload request) done).
Proof.
  intros H. apply in_map_iff in H. destruct H as (p & H & _). discriminate.
Qed.

Lemma completed_loop_raises_nothing
  (payload : NewEvaluation.t) (request : Request.t)
  (done : list (string * Evaluation.t)) (exc : PyExc) :
  ~ ((exists variant_id, In (variant_id, Raise exc) (map created_ok done))
     \/ (exists job,
           In (job, Raise exc) (map (enqueued_ok payload request) done))).
Proof.
  intros [[variant_id H]|[job H]].
  - exact (no_raise_created_ok _ _ _ H).
  - exact (no_raise_enqueued_ok _ _ _ _ _ H).
Qed.

Lemma failing_loop_raises
  (payload : NewEvaluation.t) (request : Request.t)
  (done : list (string * Evaluation.t)) (variant_id : string)
  (e exc : PyExc) (failing : list Event) :
  failing_iteration payload request variant_id e failing ->
  (exists v, In (v, Raise exc) (map created_ok done ++ create_calls failing))
  \/ (exists job,
        In (job, Raise exc)
           (map (enqueued_ok payload request) done ++ enqueued failing)) ->
  exc = e.
Proof.
  intros Hf [[v H]|[job H]]; apply in_app_iff in H; destruct H as [H|H].
  - destruct (no_raise_created_ok _ _ _ H).
  - destruct Hf as [Hf|[evaluation Hf]]; subst; cbn in H;
      intuition congruence.
  - destruct (no_raise_enqueued_ok _ _ _ _ _ H).
  - destruct Hf as [Hf|[evaluation Hf]]; subst; cbn in H;
      intuition congruence.
Qed.

Lemma no_compare_granted
  (request : Request.t) (checked ids : list string) (project_id : string)
  (r : Res PyValue) :
  ~ In (Ev_compare_evaluations_scenarios ids project_id r)
       (map (granted_event request) checked).
Proof.
  intros H. apply in_map_iff in H. destruct H as (evaluation_id & H & _).
  discriminate.
Qed.

Lemma firstn_through (A : Type) (l : list A) (x : A) (rest : list A) :
  firstn (List.length l + 1) (l ++ x :: rest) = l ++ [x].
Proof.
  induction l as [|a l IH]; cbn; [reflexivity|]. rewrite IH. reflexivity.
Qed.

Lemma raising_app (t1 t2 : list Event) :
  raising (t1 ++ t2) = raising t1 ++ raising t2.
Proof.
  induction t1 as [|ev t1 IH]; cbn; [reflexivity|].
  destruct (event_exception ev); cbn; rewrite IH; reflexivity.
Qed.

Lemma update_calls_app (t1 t2 : list Event) :
  update_calls (t1 ++ t2) = update_calls t1 ++ update_calls t2.
Proof.
  induction t1 as [|ev t1 IH]; cbn; [reflexivity|].
  destruct ev; cbn; rewrite ?IH; reflexivity.
Qed.

Lemma raising_loop_events
  (payload : NewEvaluation.t) (request : Request.t)
  (done : list (string * Evaluation.t)) :
  raising (loop_events payload request done) = [].
Proof.
  induction done as [|p done IH]; cbn; [reflexivity|]. exact IH.
Qed.

Lemma update_calls_loop_events
  (payload : NewEvaluation.t) (request : Request.t)
  (done : list (string * Evaluation.t)) :
  update_calls (loop_events payload request done) = [].
Proof.
  induction done as [|p done IH]; cbn; [reflexivity|]. exact IH.
Qed.

Lemma raising_granted (request : Request.t) (ids : list string) :
  raising (map (granted_event request) ids) = [].
Proof.
  induction ids as [|evaluation_id ids IH]; cbn; [reflexivity|]. exact IH.
Qed.

Lemma asks_granted (request : Request.t) (ids : list string) :
  Forall (asks VIEW_EVALUATION (State.user_id (Request.state request)))
    (map (fun evaluation_id =>
            (comparison_access request evaluation_id, Ok true)) ids).
Proof.
  induction ids as [|evaluation_id ids IH]; cbn; constructor.
  - split; reflexivity.
  - exact IH.
Qed.

Lemma granted_pairs_granted (request : Request.t) (ids : list string) :
  Forall is_granted
    (map (fun evaluation_id =>
            (comparison_access request evaluation_id, Ok true)) ids).
Proof.
  induction ids as [|evaluation_id ids IH]; cbn; constructor;
    [reflexivity|exact IH].
Qed.

Lemma not_denied_pairs (request : Request.t) (ids : list string)
  (args : Access.t) :
  ~ In (args, Ok false)
       (map (fun evaluation_id =>
               (comparison_access request evaluation_id, Ok true)) ids).
Proof.
  intros H. apply in_map_iff in H. destruct H as (evaluation_id & H & _).
  discriminate.
Qed.

Lemma critique_calls_app (t1 t2 : list Event) :
  critique_calls (t1 ++ t2) = critique_calls t1 ++ critique_calls t2.
Proof.
  induction t1 as [|ev t1 IH]; cbn; [reflexivity|].
  destruct ev; cbn; rewrite ?IH; reflexivity.
Qed.

Lemma critique_calls_loop_events
  (payload : NewEvaluation.t) (request : Request.t)
  (done : list (string * Evaluation.t)) :
  critique_calls (loop_events payload request done) = [].
Proof.
  induction done as [|p done IH]; cbn; [reflexivity|]. exact IH.
Qed.

Lemma random_index_in (first : string) (rest : list string) (i : nat) :
  In (nth (Nat.modulo i (List.length (first :: rest))) (first :: rest) first)
     (first :: rest).
Proof.
  apply nth_In. apply Nat.mod_upper_bound. discriminate.
Qed.

Lemma split_comma_cons (c : ascii) (rest : string) :
  Ascii.eqb c ","%char = false ->
  exists piece pieces,
    split_comma rest = piece :: pieces
    /\ split_comma (String c rest) = String c piece :: pieces.
Proof.
  intros Hc. cbn. rewrite Hc.
  destruct (split_comma rest) as [|piece pieces] eqn:Hrest.
  - destruct (split_comma_nonempty _ Hrest).
  - exists piece, pieces. split; reflexivity.
Qed.

Lemma join_comma_cons (c : ascii) (piece : string) (pieces : list string) :
  join_comma (String c piece :: pieces)
  = String c (join_comma (piece :: pieces)).
Proof.
  destruct pieces; reflexivity.
Qed.

Section RouterFacts.

Context {World : Type}.
Variable C : Collaborators World.

(** Unfolds one handler down to the collaborator calls and splits on
    every outcome a call can have. *)
Ltac unfold_run :=
  cbv [fetch_evaluation_ids fetch_evaluation_ids_body
       fetch_evaluation_status fetch_evaluation_status_body
       fetch_evaluation_results fetch_evaluation_results_body
       fetch_evaluation_scenarios fetch_evaluation_scenarios_body
       fetch_list_evaluations fetch_list_evaluations_body
       fetch_evaluation fetch_evaluation_body
       delete_evaluations delete_evaluations_body
       create_evaluation create_evaluation_body
       fetch_evaluation_scenarios_comparison
       fetch_evaluation_scenarios_comparison_body
       getattr_evaluation on_permission await_check_action_access
       random_choice logger_debug logger_error traceback_print_exc
       try_except bind call draw ret raise result trace world fst snd].

Ltac split_calls :=
  repeat match goal with
    | |- context [match ?x with _ => _ end] =>
        lazymatch x with
        | context [match _ with _ => _ end] => fail
        | negb ?b => destruct b
        | _ =>
            match type of x with
            | Run _ _ => destruct x as [[? ?] ?] eqn:?
            | (_ * _)%type => destruct x eqn:?
            | Res _ => destruct x
            | PyExc => destruct x
            | bool => destruct x eqn:?
            | option _ => destruct x
            | list _ => destruct x
            end
        end; cbn [app negb]
    end.

(** *** The per-variant loop *)

Lemma create_evaluation_loop_run
  (payload : NewEvaluation.t) (request : Request.t) :
  forall variant_ids evaluations w r w' t,
    create_evaluation_loop C payload request variant_ids evaluations w
    = (r, w', t) ->
    match r with
    | Ok created =>
        exists done,
          map fst done = variant_ids
          /\ created = evaluations ++ map snd done
          /\ t = loop_events payload request done
    | Raise exc =>
        exists done variant_id rest failing,
          variant_ids = map fst done ++ variant_id :: rest
          /\ t = loop_events payload request done ++ failing
          /\ failing_iteration payload request variant_id exc failing
    end.
Proof.
  induction variant_ids as [|variant_id rest IH]; intros evaluations w r w' t.
  - cbn. intros H; inversion H; subst.
    exists []; cbn. rewrite app_nil_r. auto.
  - cbn [create_evaluation_loop]. unfold bind at 1. unfold call at 1.
    destruct (evaluation_service_create_new_evaluation C _ _ _ _ w)
      as [[evaluation|exc] w1].
    + unfold bind at 1. unfold call at 1.
      destruct (evaluate_delay C _ w1) as [[[]|exc] w2].
      * destruct (create_evaluation_loop C payload request rest
                    (evaluations ++ [evaluation]) w2)
          as [[r2 w3] t3] eqn:Hrest.
        apply IH in Hrest.
        intros H; inversion H; subst; clear H.
        destruct r as [created|exc].
        -- destruct Hrest as (done & Hfst & Hcreated & Ht).
           exists ((variant_id, evaluation) :: done).
           cbn. subst. rewrite <- app_assoc. auto.
        -- destruct Hrest as (done & v & post & failing & Hids & Ht & Hf).
           exists ((variant_id, evaluation) :: done), v, post, failing.
           cbn. subst. auto.
      * intros H; inversion H; subst; clear H.
        exists [], variant_id, rest.
        eexists; cbn; split; [reflexivity|]; split; [reflexivity|].
        right; exists evaluation; reflexivity.
    + intros H; inversion H; subst; clear H.
      exists [], variant_id, rest.
      eexists; cbn; split; [reflexivity|]; split; [reflexivity|].
      left; reflexivity.
Qed.

(** *** The permission loop of the comparison handler *)

Lemma comparison_check_loop_run (A : Type) (request : Request.t) :
  forall evaluations_ids_list w (r : Res (option (Returned A))) w' t,
    comparison_check_loop C request evaluations_ids_list w = (r, w', t) ->
    match r with
    | Ok None => t = map (granted_event request) evaluations_ids_list
    | Ok (Some response) =>
        response = JSONResponse permission_denied 403
        /\ exists checked evaluation_id rest,
             evaluations_ids_list = checked ++ evaluation_id :: rest
             /\ t = map (granted_event request) checked
                    ++ [Ev_check_action_access
                          (comparison_access request evaluation_id)
                          (Ok false)]
    | Raise exc =>
        exists checked evaluation_id rest,
          evaluations_ids_list = checked ++ evaluation_id :: rest
          /\ t = map (granted_event request) checked
                 ++ [Ev_check_action_access
                       (comparison_access request evaluation_id)
                       (Raise exc)]
    end.
Proof.
  induction evaluations_ids_list as [|evaluation_id rest IH];
    intros w r w' t.
  - cbn. intros H; inversion H; subst. reflexivity.
  - cbn [comparison_check_loop].
    unfold bind at 1. unfold await_check_action_access, call at 1.
    destruct (check_action_access C _ w) as [[[|]|exc] w1].
    + cbn.
      destruct (comparison_check_loop C request rest w1)
        as [[r2 w3] t3] eqn:Hrest.
      apply IH in Hrest.
      intros H; inversion H; subst; clear H.
      destruct r as [[response|]|exc].
      * destruct Hrest as (Hresp & checked & id & post & Hids & Ht).
        split; [assumption|].
        exists (evaluation_id :: checked), id, post. subst. auto.
      * subst. reflexivity.
      * destruct Hrest as (checked & id & post & Hids & Ht).
        exists (evaluation_id :: checked), id, post. subst. auto.
    + cbn. intros H; inversion H; subst; clear H.
      split; [reflexivity|]. exists [], evaluation_id, rest. auto.
    + intros H; inversion H; subst; clear H.
      exists [], evaluation_id, rest. auto.
Qed.

(** Brings in what is known of a loop whose run has been named. *)
Ltac loop_facts :=
  repeat match goal with
    | H : create_evaluation_loop _ _ _ _ _ _ = _ |- _ =>
        apply create_evaluation_loop_run in H
    | H : comparison_check_loop _ _ _ _ = _ |- _ =>
        apply comparison_check_loop_run in H
    end.

(** *** Permission denied *)

Ltac open_facts :=
  repeat match goal with
    | H : exists _, _ |- _ => destruct H
    | H : _ /\ _ |- _ => destruct H
    end.

Ltac denial_cases :=
  unfold denial_is_403, access_denied; intros w;
  unfold_run; split_calls; loop_facts;
  try reflexivity;
  intros [args H]; open_facts; subst; try reflexivity;
  exfalso;
  repeat match goal with
    | Hf : failing_iteration _ _ _ _ _ |- _ =>
        apply access_checks_failing_iteration in Hf
    end;
  cbn in H;
  repeat rewrite ?access_checks_app, ?access_checks_loop_events in H;
  repeat match goal with
    | Hf : access_checks _ = [] |- _ => rewrite Hf in H
    end;
  cbn in H; rewrite ?in_app_iff in H; cbn in H;
  intuition (try discriminate);
  eapply not_denied_granted; eassumption.

(** C3. In every handler, whenever a [check_action_access] call of the
    request answers [False] (which only happens in cloud mode, where the
    check is made), the handler returns the JSON response with status 403
    whose detail is the fixed permission message. *)
Theorem permission_denied_is_403 :
  (forall app_id resource_type request resource_ids,
      denial_is_403
        (fetch_evaluation_ids C app_id resource_type request resource_ids))
  /\ (forall payload request,
        denial_is_403 (create_evaluation C payload request))
  /\ (forall evaluation_id request,
        denial_is_403 (fetch_evaluation_status C evaluation_id request))
  /\ (forall evaluation_id request,
        denial_is_403 (fetch_evaluation_results C evaluation_id request))
  /\ (forall evaluation_id request,
        denial_is_403 (fetch_evaluation_scenarios C evaluation_id request))
  /\ (forall app_id request,
        denial_is_403 (fetch_list_evaluations C app_id request))
  /\ (forall evaluation_id request,
        denial_is_403 (fetch_evaluation C evaluation_id request))
  /\ (forall payload request,
        denial_is_403 (delete_evaluations C payload request))
  /\ (forall evaluations_ids request,
        denial_is_403
          (fetch_evaluation_scenarios_comparison C evaluations_ids request)).
Proof.
  repeat split; intros.
  - denial_cases.
  - denial_cases.
  - denial_cases.
  - denial_cases.
  - denial_cases.
  - denial_cases.
  - denial_cases.
  - denial_cases.
  - denial_cases.
Qed.

(** *** Deleting *)

(** C9. With an empty [payload.evaluations_ids], [delete_evaluations]
    raises the HTTP error 500 carrying the message of [random.choice], in
    cloud mode and outside it; no collaborator is called (so nothing is
    deleted), the world is left as it was, and the 204 response is not
    returned. *)
Theorem delete_evaluations_empty_is_500
  (payload : DeleteEvaluation.t) (request : Request.t) (w : World) :
  DeleteEvaluation.evaluations_ids payload = [] ->
  result (delete_evaluations C payload request w)
  = Raise (HTTPException 500 "Cannot choose from an empty sequence")
  /\ http_status (result (delete_evaluations C payload request w)) = Some 500
  /\ trace (delete_evaluations C payload request w) = []
  /\ delete_calls (trace (delete_evaluations C payload request w)) = []
  /\ world (delete_evaluations C payload request w) = w.
Proof.
  intros Hempty. unfold_run. rewrite Hempty.
  destruct (isCloudEE C); cbn; auto.
Qed.

(** C6. When [delete_evaluations] returns anything but the permission
    denial, it returns [Response(status_code=204)], whose body is empty,
    and [evaluation_service.delete_evaluations] has been called exactly
    once, with exactly the list [payload.evaluations_ids] (and the
    project of the request), and has returned. *)
Theorem delete_evaluations_success
  (payload : DeleteEvaluation.t) (request : Request.t) (w : World)
  (response : Returned (list string)) :
  result (delete_evaluations C payload request w) = Ok response ->
  response <> JSONResponse permission_denied 403 ->
  (exists content,
      response = Response content 204 /\ response_body content = "")
  /\ http_status (result (delete_evaluations C payload request w)) = Some 204
  /\ delete_calls (trace (delete_evaluations C payload request w))
     = [ (DeleteEvaluation.evaluations_ids payload,
          State.project_id (Request.state request), Ok tt) ].
Proof.
  unfold_run. split_calls; cbn.
  all: intros Hres Hnot; inversion Hres; subst; try congruence.
  all: repeat match goal with u : unit |- _ => destruct u end.
  all: (split; [exists None; split; reflexivity|]); split; reflexivity.
Qed.

(** *** Errors *)

(** C7. In [create_evaluation], when a [KeyError] is raised (the body
    ends with it, or some collaborator call of the request raised it), the
    handler raises the HTTP error 400 with the column-mismatch message. *)
Theorem create_evaluation_key_error_is_400
  (payload : NewEvaluation.t) (request : Request.t) (w : World)
  (msg : string) :
  result (create_evaluation_body C payload request w) = Raise (KeyError msg)
  \/ raised_in (trace (create_evaluation C payload request w)) (KeyError msg) ->
  result (create_evaluation C payload request w)
  = Raise (HTTPException 400 column_mismatch)
  /\ http_status (result (create_evaluation C payload request w)) = Some 400.
Proof.
  unfold raised_in. unfold_run. split_calls; loop_facts; open_facts; subst.
  all: try (split; reflexivity).
  all: intros [Hbody|Hcall]; [discriminate Hbody|]; exfalso.
  all: cbn in Hcall; repeat rewrite ?map_app, ?in_app_iff in Hcall;
    cbn in Hcall.
  all: repeat match goal with
         | H : _ \/ _ |- _ => destruct H
         | H : False |- _ => contradiction
         | H : Some _ = Some _ |- _ => discriminate H
         | H : None = Some _ |- _ => discriminate H
         | H : KeyError _ = _ |- _ => discriminate H
         | H : In _ (map event_exception (loop_events _ _ _)) |- _ =>
             apply no_exception_loop_events in H
         | Hf : failing_iteration _ _ _ _ ?l,
           H : In _ (map event_exception ?l) |- _ =>
             apply (@exception_failing_iteration _ _ _ _ _ _ Hf) in H
         end.
Qed.

Ltac conversion :=
  unfold converts; intros w exc; cbv [try_except result world trace fst snd];
  match goal with
  | |- context [?body w] =>
      match type of (body w) with
      | Run _ _ => destruct (body w) as [[r w1] t1]
      end
  end;
  intros Hres; subst;
  cbv [internal_error own_status_error list_error create_error
       traceback_print_exc bind ret raise];
  try destruct exc; cbn [app]; rewrite ?app_nil_r; reflexivity.

(** C8, amended. Every handler turns an exception escaping its body into
    an HTTP error.  [fetch_evaluation_ids], [fetch_evaluation_status],
    [fetch_evaluation_results], [delete_evaluations] and the comparison
    handler answer 500 with [str(exc)] as detail, whatever the exception
    carries.  [fetch_evaluation_scenarios], [fetch_evaluation] and, for
    anything but a [KeyError], [create_evaluation] answer with the
    exception's own [status_code] when it carries one and with 500 when it
    does not, detail [str(exc)]; [fetch_list_evaluations] does the same
    with a prefixed detail; a [KeyError] in [create_evaluation] becomes
    400 with the column-mismatch message. *)
Theorem exceptions_become_http_errors :
  (forall app_id resource_type request resource_ids,
      converts
        (fetch_evaluation_ids_body C app_id resource_type request resource_ids)
        (fetch_evaluation_ids C app_id resource_type request resource_ids)
        (internal_error C))
  /\ (forall evaluation_id request,
        converts (fetch_evaluation_status_body C evaluation_id request)
          (fetch_evaluation_status C evaluation_id request) (internal_error C))
  /\ (forall evaluation_id request,
        converts (fetch_evaluation_results_body C evaluation_id request)
          (fetch_evaluation_results C evaluation_id request) (internal_error C))
  /\ (forall payload request,
        converts (delete_evaluations_body C payload request)
          (delete_evaluations C payload request) (internal_error C))
  /\ (forall evaluations_ids request,
        converts
          (fetch_evaluation_scenarios_comparison_body C evaluations_ids request)
          (fetch_evaluation_scenarios_comparison C evaluations_ids request)
          (internal_error C))
  /\ (forall evaluation_id request,
        converts (fetch_evaluation_scenarios_body C evaluation_id request)
          (fetch_evaluation_scenarios C evaluation_id request)
          (own_status_error C))
  /\ (forall evaluation_id request,
        converts (fetch_evaluation_body C evaluation_id request)
          (fetch_evaluation C evaluation_id request) (own_status_error C))
  /\ (forall app_id request,
        converts (fetch_list_evaluations_body C app_id request)
          (fetch_list_evaluations C app_id request) (list_error C))
  /\ (forall payload request,
        converts (create_evaluation_body C payload request)
          (create_evaluation C payload request) (create_error C))
  /\ (forall exc status_code,
        status_code_attr exc = Some status_code ->
        status_code_or_500 exc = status_code)
  /\ (forall exc,
        status_code_attr exc = None -> status_code_or_500 exc = 500).
Proof.
  repeat split; intros.
  - unfold fetch_evaluation_ids. conversion.
  - unfold fetch_evaluation_status. conversion.
  - unfold fetch_evaluation_results. conversion.
  - unfold delete_evaluations. conversion.
  - unfold fetch_evaluation_scenarios_comparison. conversion.
  - unfold fetch_evaluation_scenarios. conversion.
  - unfold fetch_evaluation. conversion.
  - unfold fetch_list_evaluations. conversion.
  - unfold create_evaluation. conversion.
  - unfold status_code_or_500. rewrite H. reflexivity.
  - unfold status_code_or_500. rewrite H. reflexivity.
Qed.

(** *** Creating *)

(** The calls of a trace that come before its first appended part. *)
Ltac trace_prefix t :=
  lazymatch t with
  | ?ev :: ?rest => let p := trace_prefix rest in constr:(ev :: p)
  | _ => constr:(@nil Event)
  end.

(** C4. When [create_evaluation] returns the list [evaluations], the
    request has called [create_new_evaluation] once per variant id of the
    payload, in order, each call returning; it has enqueued one job per
    variant id, each for the evaluation created for that variant; and
    [evaluations] are these created evaluations, one per variant id. *)
Theorem create_evaluation_one_per_variant
  (payload : NewEvaluation.t) (request : Request.t) (w : World)
  (evaluations : list Evaluation.t) :
  result (create_evaluation C payload request w) = Ok (Body evaluations) ->
  List.length evaluations = List.length (NewEvaluation.variant_ids payload)
  /\ create_calls (trace (create_evaluation C payload request w))
     = map created_ok
         (combine (NewEvaluation.variant_ids payload) evaluations)
  /\ enqueued (trace (create_evaluation C payload request w))
     = map (enqueued_ok payload request)
         (combine (NewEvaluation.variant_ids payload) evaluations).
Proof.
  unfold_run. split_calls; loop_facts; open_facts; subst.
  all: intros Hres; try discriminate Hres.
  all: inversion Hres; subst; clear Hres.
  all: match goal with
       | H : map fst ?done = NewEvaluation.variant_ids _ |- _ =>
           rewrite <- H
       end.
  all: cbn; rewrite combine_fst_snd, !length_map.
  all: rewrite ?create_calls_app, ?enqueued_app,
         ?create_calls_loop_events, ?enqueued_loop_events; cbn.
  all: rewrite ?app_nil_r; auto.
Qed.

(** C10. When the per-variant loop of [create_evaluation] fails (a
    [create_new_evaluation] call or an [evaluate.delay] call of the request
    raises [exc]), the variant ids split into those already processed, the
    failing one and the rest; the trace of the request is some calls that
    create and enqueue nothing, then the completed creation and enqueue of
    every variant id already processed, then the failing iteration, and
    nothing after it: no deletion is called; and the handler raises the
    HTTP error built from [exc]. *)
Theorem create_evaluation_not_atomic
  (payload : NewEvaluation.t) (request : Request.t) (w : World)
  (exc : PyExc) :
  (exists variant_id,
      In (variant_id, Raise exc)
         (create_calls (trace (create_evaluation C payload request w))))
  \/ (exists job,
        In (job, Raise exc)
           (enqueued (trace (create_evaluation C payload request w)))) ->
  exists done variant_id rest failing before,
    trace (create_evaluation C payload request w)
    = before ++ loop_events payload request done ++ failing
    /\ NewEvaluation.variant_ids payload
       = map fst done ++ variant_id :: rest
    /\ failing_iteration payload request variant_id exc failing
    /\ create_calls before = [] /\ enqueued before = []
    /\ delete_calls (trace (create_evaluation C payload request w)) = []
    /\ result (create_evaluation C payload request w)
       = Raise (create_error C exc)
    /\ exists status_code detail,
         create_error C exc = HTTPException status_code detail.
Proof.
  unfold_run. split_calls; loop_facts; open_facts; subst.
  all: cbn [create_calls enqueued app];
    rewrite ?create_calls_app, ?enqueued_app,
      ?create_calls_loop_events, ?enqueued_loop_events, ?app_nil_r.
  all: cbn [create_calls enqueued app]; rewrite ?app_nil_r.
  all: intros Hfail.
  all: try (exfalso;
            first [ exact (completed_loop_raises_nothing _ _ _ _ Hfail)
                  | destruct Hfail as [[? []]|[? []]] ]).
  all: match goal with
       | Hf : failing_iteration _ _ _ _ _ |- _ =>
           pose proof (@failing_loop_raises _ _ _ _ _ _ _ Hf Hfail) as Hexc;
           pose proof (delete_calls_failing_iteration Hf) as Hdel
       end; subst exc.
  all: match goal with
       | Hf : failing_iteration _ _ ?v _ ?f,
         Hids : _ = map fst ?d ++ ?v :: ?rest
         |- context [delete_calls ?t = []] =>
           let b := trace_prefix t in
           exists d, v, rest, f, b
       end.
  all: repeat split; try assumption; try reflexivity.
  all: try (cbn [delete_calls app];
            rewrite delete_calls_app, delete_calls_loop_events, Hdel;
            reflexivity).
  all: unfold own_status_error; do 2 eexists; reflexivity.
Qed.

(** *** Missing ids *)

(** C1, on the code. When the looked-up app or evaluation does not exist
    (the database layer answers [None]), [create_evaluation],
    [fetch_evaluation_scenarios] and [fetch_evaluation] answer 404, while
    [fetch_evaluation_status] and [fetch_evaluation_results], which lack
    that guard, never answer 404: outside cloud mode they read an
    attribute of [None] and answer 500 with the [AttributeError] text. *)
Theorem missing_id_status :
  (forall payload request w w1,
      db_manager_fetch_app_by_id C (NewEvaluation.app_id payload)
        (State.project_id (Request.state request)) w = (Ok None, w1) ->
      http_status (result (create_evaluation C payload request w))
      = Some 404)
  /\ (forall evaluation_id request w w1,
        db_manager_fetch_evaluation_by_id C evaluation_id
          (State.project_id (Request.state request)) w = (Ok None, w1) ->
        http_status
          (result (fetch_evaluation_scenarios C evaluation_id request w))
        = Some 404
        /\ http_status (result (fetch_evaluation C evaluation_id request w))
           = Some 404)
  /\ (forall evaluation_id request w w1,
        db_manager_fetch_evaluation_by_id C evaluation_id
          (State.project_id (Request.state request)) w = (Ok None, w1) ->
        http_status
          (result (fetch_evaluation_status C evaluation_id request w))
        <> Some 404
        /\ http_status
             (result (fetch_evaluation_results C evaluation_id request w))
           <> Some 404
        /\ (isCloudEE C = false ->
            result (fetch_evaluation_status C evaluation_id request w)
            = Raise (HTTPException 500
                       "'NoneType' object has no attribute 'status'")
            /\ result (fetch_evaluation_results C evaluation_id request w)
               = Raise (HTTPException 500
                          "'NoneType' object has no attribute 'aggregated_results'"))).
Proof.
  split; [|split].
  - intros payload request w w1 Hmissing.
    unfold_run. rewrite Hmissing. reflexivity.
  - intros evaluation_id request w w1 Hmissing.
    unfold_run. rewrite Hmissing. split; reflexivity.
  - intros evaluation_id request w w1 Hmissing.
    unfold_run. rewrite Hmissing. cbn [option_map].
    repeat split.
    + split_calls; cbn; discriminate.
    + split_calls; cbn; discriminate.
    + rewrite H. reflexivity.
    + rewrite H. reflexivity.
Qed.

(** *** Comparing *)

(** C5. In cloud mode the comparison handler splits its argument into
    K >= 1 ids, and whenever it calls
    [evaluation_service.compare_evaluations_scenarios], the calls of the
    request are exactly K granted [check_action_access] calls, one per id
    in order, followed by that one call on the K ids. *)
Theorem comparison_checks_every_id
  (evaluations_ids : string) (request : Request.t) (w : World) :
  isCloudEE C = true ->
  (1 <= List.length (split_comma evaluations_ids))%nat
  /\ forall ids project_id r,
      In (Ev_compare_evaluations_scenarios ids project_id r)
         (trace (fetch_evaluation_scenarios_comparison C evaluations_ids
                   request w)) ->
      trace (fetch_evaluation_scenarios_comparison C evaluations_ids
               request w)
      = map (granted_event request) (split_comma evaluations_ids)
        ++ [Ev_compare_evaluations_scenarios (split_comma evaluations_ids)
              (State.project_id (Request.state request)) r]
      /\ ids = split_comma evaluations_ids
      /\ List.length
           (access_checks
              (trace (fetch_evaluation_scenarios_comparison C
                        evaluations_ids request w)))
         = List.length (split_comma evaluations_ids).
Proof.
  intros Hcloud. split.
  - pose proof (split_comma_nonempty evaluations_ids) as Hne.
    destruct (split_comma evaluations_ids); [congruence|cbn; lia].
  - unfold_run. rewrite Hcloud.
    split_calls; loop_facts; open_facts; subst.
    all: intros ids project_id r Hin.
    all: rewrite ?app_nil_r in *.
    all: apply in_app_iff in Hin; destruct Hin as [Hin|Hin];
      try (destruct (no_compare_granted _ _ _ _ _ Hin));
      cbn in Hin; try intuition discriminate.
    all: destruct Hin as [Hin|[]]; inversion Hin; subst.
    all: rewrite access_checks_app, access_checks_granted, length_app,
           length_map; cbn; auto with arith.
Qed.

(** *** One check against one check per id *)

Lemma comparison_loop_checks (A : Type) (request : Request.t)
  (ids : list string) (w w' : World) (r : Res (option (Returned A)))
  (t : list Event) :
  comparison_check_loop C request ids w = (r, w', t) ->
  map fst (access_checks t)
  = map (comparison_access request)
      (firstn (List.length (access_checks t)) ids)
  /\ (Forall is_granted (access_checks t) ->
      List.length (access_checks t) = List.length ids).
Proof.
  intros Hrun. apply comparison_check_loop_run in Hrun.
  destruct r as [[response|]|exc]; open_facts; subst;
    rewrite ?access_checks_app, access_checks_granted; cbn;
    rewrite ?length_app, ?length_map, ?map_app, ?map_map; cbn.
  - rewrite firstn_through, map_app. split; [reflexivity|].
    intros Hall. apply Forall_app in Hall. destruct Hall as [_ Hlast].
    inversion Hlast; subst. discriminate.
  - rewrite firstn_all. split; reflexivity.
  - rewrite firstn_through, map_app. split; [reflexivity|].
    intros Hall. apply Forall_app in Hall. destruct Hall as [_ Hlast].
    inversion Hlast; subst. discriminate.
Qed.

(** C2, amended. In cloud mode, [delete_evaluations] on a payload with at
    least one id issues exactly one [check_action_access] call, on one id
    taken from [payload.evaluations_ids], however many ids there are.  The
    comparison handler instead checks the ids one by one in order: the ids
    it has checked are an initial part of its list, and when every check
    it issued was granted, it has checked each of them. *)
Theorem delete_checks_one_id_comparison_each :
  isCloudEE C = true ->
  (forall payload request w,
      DeleteEvaluation.evaluations_ids payload <> [] ->
      exists evaluation_id r,
        access_checks (trace (delete_evaluations C payload request w))
        = [(delete_access request evaluation_id, r)]
        /\ In evaluation_id (DeleteEvaluation.evaluations_ids payload))
  /\ (forall evaluations_ids request w,
        let checks :=
          access_checks
            (trace (fetch_evaluation_scenarios_comparison C evaluations_ids
                      request w)) in
        map fst checks
        = map (comparison_access request)
            (firstn (List.length checks) (split_comma evaluations_ids))
        /\ (Forall is_granted checks ->
            List.length checks
            = List.length (split_comma evaluations_ids))).
Proof.
  intros Hcloud. split.
  - intros payload request w. unfold_run. rewrite Hcloud.
    destruct (DeleteEvaluation.evaluations_ids payload) as [|first rest];
      [congruence|].
    intros _.
    assert (Hin : forall i,
               In (nth (Nat.modulo i (List.length (first :: rest)))
                     (first :: rest) first) (first :: rest)).
    { intros i. apply nth_In. apply Nat.mod_upper_bound. discriminate. }
    split_calls.
    all: do 2 eexists; split; [cbn; reflexivity|apply Hin].
  - intros evaluations_ids request w checks. subst checks.
    unfold_run. rewrite Hcloud.
    destruct (comparison_check_loop C request (split_comma evaluations_ids) w)
      as [[r w1] t] eqn:Hloop.
    apply comparison_loop_checks in Hloop.
    split_calls; cbn [access_checks app];
      rewrite ?app_nil_r, ?access_checks_app; cbn [access_checks];
      rewrite ?app_nil_r; exact Hloop.
Qed.

(** *** Every handler answers over HTTP *)



(** *** Outside cloud mode *)

Ltac checks_of_trace :=
  repeat match goal with
    | Hf : failing_iteration _ _ _ _ _ |- _ =>
        apply access_checks_failing_iteration in Hf
    end;
  cbn [access_checks app];
  repeat rewrite ?access_checks_app, ?access_checks_loop_events,
    ?access_checks_granted;
  repeat match goal with
    | Hf : access_checks _ = [] |- _ => rewrite Hf
    end;
  cbn [access_checks app].

(** X2. Outside cloud mode no handler ever calls [check_action_access]. *)
Theorem no_check_outside_cloud :
  isCloudEE C = false ->
  (forall app_id resource_type request resource_ids w,
      access_checks
        (trace (fetch_evaluation_ids C app_id resource_type request
                  resource_ids w)) = [])
  /\ (forall payload request w,
        access_checks (trace (create_evaluation C payload request w)) = [])
  /\ (forall evaluation_id request w,
        access_checks
          (trace (fetch_evaluation_status C evaluation_id request w)) = [])
  /\ (forall evaluation_id request w,
        access_checks
          (trace (fetch_evaluation_results C evaluation_id request w)) = [])
  /\ (forall evaluation_id request w,
        access_checks
          (trace (fetch_evaluation_scenarios C evaluation_id request w)) = [])
  /\ (forall app_id request w,
        access_checks (trace (fetch_list_evaluations C app_id request w)) = [])
  /\ (forall evaluation_id request w,
        access_checks (trace (fetch_evaluation C evaluation_id request w)) = [])
  /\ (forall payload request w,
        access_checks (trace (delete_evaluations C payload request w)) = [])
  /\ (forall evaluations_ids request w,
        access_checks
          (trace (fetch_evaluation_scenarios_comparison C evaluations_ids
                    request w)) = []).
Proof.
  intros Hoss.
  repeat split; intros; unfold_run; rewrite Hoss;
    split_calls; loop_facts; open_facts; subst;
    checks_of_trace; reflexivity.
Qed.

(** *** In cloud mode *)

Ltac last_of_trace :=
  unfold last_event; repeat (cbn [rev app]; rewrite ?rev_app_distr);
  cbn; reflexivity.

Ltac granted_cases Hcloud :=
  unfold returns_only_if_granted, granted_throughout;
  intros w response; unfold_run; rewrite Hcloud;
  split_calls; loop_facts; open_facts; subst;
  intros Hres Hnot; inversion Hres; subst; try congruence;
  checks_of_trace;
  (split; [discriminate|repeat constructor]).

(** X3. In cloud mode, whenever a handler returns anything but the
    permission denial (data, the 204 of a delete, a forwarded response), it
    has issued at least one [check_action_access] call and every call it
    issued was granted. *)
Theorem cloud_returns_only_if_granted :
  isCloudEE C = true ->
  (forall app_id resource_type request resource_ids,
      returns_only_if_granted
        (fetch_evaluation_ids C app_id resource_type request resource_ids))
  /\ (forall payload request,
        returns_only_if_granted (create_evaluation C payload request))
  /\ (forall evaluation_id request,
        returns_only_if_granted
          (fetch_evaluation_status C evaluation_id request))
  /\ (forall evaluation_id request,
        returns_only_if_granted
          (fetch_evaluation_results C evaluation_id request))
  /\ (forall evaluation_id request,
        returns_only_if_granted
          (fetch_evaluation_scenarios C evaluation_id request))
  /\ (forall app_id request,
        returns_only_if_granted (fetch_list_evaluations C app_id request))
  /\ (forall evaluation_id request,
        returns_only_if_granted (fetch_evaluation C evaluation_id request))
  /\ (forall payload request,
        returns_only_if_granted (delete_evaluations C payload request))
  /\ (forall evaluations_ids request,
        returns_only_if_granted
          (fetch_evaluation_scenarios_comparison C evaluations_ids request)).
Proof.
  intros Hcloud. repeat apply conj; intros.
  - granted_cases Hcloud.
  - granted_cases Hcloud.
  - granted_cases Hcloud.
  - granted_cases Hcloud.
  - granted_cases Hcloud.
  - granted_cases Hcloud.
  - granted_cases Hcloud.
  - granted_cases Hcloud.
  - unfold returns_only_if_granted, granted_throughout.
    intros w response. unfold_run. rewrite Hcloud.
    split_calls; loop_facts; open_facts; subst.
    all: intros Hres Hnot; inversion Hres; subst; try congruence.
    all: checks_of_trace; rewrite app_nil_r.
    all: split; [|apply granted_pairs_granted].
    all: pose proof (split_comma_nonempty evaluations_ids) as Hne.
    all: destruct (split_comma evaluations_ids); [congruence|discriminate].
Qed.

Ltac denial_ends_cases :=
  unfold denial_ends; intros w args;
  unfold_run; split_calls; loop_facts; open_facts; subst;
  checks_of_trace; intros Hin;
  repeat match goal with
    | H : In _ (_ ++ _) |- _ => apply in_app_iff in H; destruct H as [H|H]
    | H : In _ (map _ _) |- _ => destruct (not_denied_pairs _ _ _ H)
    | H : In _ (_ :: _) |- _ => destruct H as [H|H]
    | H : In _ [] |- _ => destruct H
    | H : (_, _) = (_, Ok false) |- _ => inversion H; subst; clear H
    end;
  last_of_trace.

(** X4. In every handler a denied check is the last call of the request:
    once [check_action_access] has answered [False], nothing is fetched,
    created, enqueued, recorded or deleted any more, and no further id is
    checked. *)
Theorem denial_is_last_call :
  (forall app_id resource_type request resource_ids,
      denial_ends
        (fetch_evaluation_ids C app_id resource_type request resource_ids))
  /\ (forall payload request,
        denial_ends (create_evaluation C payload request))
  /\ (forall evaluation_id request,
        denial_ends (fetch_evaluation_status C evaluation_id request))
  /\ (forall evaluation_id request,
        denial_ends (fetch_evaluation_results C evaluation_id request))
  /\ (forall evaluation_id request,
        denial_ends (fetch_evaluation_scenarios C evaluation_id request))
  /\ (forall app_id request,
        denial_ends (fetch_list_evaluations C app_id request))
  /\ (forall evaluation_id request,
        denial_ends (fetch_evaluation C evaluation_id request))
  /\ (forall payload request,
        denial_ends (delete_evaluations C payload request))
  /\ (forall evaluations_ids request,
        denial_ends
          (fetch_evaluation_scenarios_comparison C evaluations_ids request)).
Proof.
  repeat apply conj; intros.
  - denial_ends_cases.
  - denial_ends_cases.
  - denial_ends_cases.
  - denial_ends_cases.
  - denial_ends_cases.
  - denial_ends_cases.
  - denial_ends_cases.
  - denial_ends_cases.
  - denial_ends_cases.
Qed.

(** *** Failures *)

Ltac failure_ends_cases :=
  unfold failure_ends; intros w exc;
  unfold_run; split_calls; loop_facts; open_facts; subst;
  repeat match goal with
    | Hf : failing_iteration _ _ _ _ _ |- _ =>
        destruct Hf as [Hf|[? Hf]]; subst
    end;
  cbn [raising event_exception raised_by app created_event];
  repeat rewrite ?raising_app, ?raising_loop_events, ?raising_granted;
  cbn [raising event_exception raised_by app created_event];
  intros Hin;
  repeat match goal with
    | H : In _ (_ :: _) |- _ => destruct H as [H|H]
    | H : In _ [] |- _ => destruct H
    end;
  subst;
  (split; [reflexivity|]);
  (split; [eexists; split; [last_of_trace|reflexivity]|]);
  do 2 eexists; reflexivity.

(** X5. In every handler a collaborator call that raises ends the request:
    it is the only call of the request that raised, it is the last call
    made (nothing is retried and nothing is called to undo earlier calls),
    and the handler raises an HTTP error. *)
Theorem failure_is_last_call :
  (forall app_id resource_type request resource_ids,
      failure_ends
        (fetch_evaluation_ids C app_id resource_type request resource_ids))
  /\ (forall payload request,
        failure_ends (create_evaluation C payload request))
  /\ (forall evaluation_id request,
        failure_ends (fetch_evaluation_status C evaluation_id request))
  /\ (forall evaluation_id request,
        failure_ends (fetch_evaluation_results C evaluation_id request))
  /\ (forall evaluation_id request,
        failure_ends (fetch_evaluation_scenarios C evaluation_id request))
  /\ (forall app_id request,
        failure_ends (fetch_list_evaluations C app_id request))
  /\ (forall evaluation_id request,
        failure_ends (fetch_evaluation C evaluation_id request))
  /\ (forall payload request,
        failure_ends (delete_evaluations C payload request))
  /\ (forall evaluations_ids request,
        failure_ends
          (fetch_evaluation_scenarios_comparison C evaluations_ids request)).
Proof.
  repeat apply conj; intros.
  - failure_ends_cases.
  - failure_ends_cases.
  - failure_ends_cases.
  - failure_ends_cases.
  - failure_ends_cases.
  - failure_ends_cases.
  - failure_ends_cases.
  - failure_ends_cases.
  - failure_ends_cases.
Qed.

(** *** Statuses *)

Ltac status_cases :=
  unfold status_among; intros w;
  unfold_run; split_calls; loop_facts; open_facts; subst;
  cbn [http_status]; eexists; (split; [reflexivity|]); cbn; auto 6.

(** X6. The five handlers whose [except] clause hard-codes 500 answer with
    a status from a fixed list whatever the collaborators return or raise,
    even an exception that carries another status: 200, 403 or 500 for
    [fetch_evaluation_ids], [fetch_evaluation_status],
    [fetch_evaluation_results] and the comparison handler, and 204, 403 or
    500 for [delete_evaluations]. *)
Theorem fixed_status_handlers :
  (forall app_id resource_type request resource_ids,
      status_among [200; 403; 500]
        (fetch_evaluation_ids C app_id resource_type request resource_ids))
  /\ (forall evaluation_id request,
        status_among [200; 403; 500]
          (fetch_evaluation_status C evaluation_id request))
  /\ (forall evaluation_id request,
        status_among [200; 403; 500]
          (fetch_evaluation_results C evaluation_id request))
  /\ (forall evaluations_ids request,
        status_among [200; 403; 500]
          (fetch_evaluation_scenarios_comparison C evaluations_ids request))
  /\ (forall payload request,
        status_among [204; 403; 500]
          (delete_evaluations C payload request)).
Proof.
  repeat apply conj; intros.
  - status_cases.
  - status_cases.
  - status_cases.
  - status_cases.
  - status_cases.
Qed.

(** *** What is asked of the authorization service *)

Ltac asks_cases :=
  unfold checks_ask; intros w;
  unfold_run; split_calls; loop_facts; open_facts; subst;
  checks_of_trace;
  repeat first
    [ apply Forall_nil
    | apply asks_granted
    | apply Forall_app; split
    | apply Forall_cons; [split; reflexivity|] ].

(** X7. Every check a handler issues is made for the user of the request
    and asks the permission of its operation: [CREATE_EVALUATION] in
    [create_evaluation], [DELETE_EVALUATION] in [delete_evaluations], and
    [VIEW_EVALUATION] in the seven reading handlers. *)
Theorem checks_ask_the_operation_permission :
  (forall app_id resource_type request resource_ids,
      checks_ask VIEW_EVALUATION request
        (fetch_evaluation_ids C app_id resource_type request resource_ids))
  /\ (forall payload request,
        checks_ask CREATE_EVALUATION request
          (create_evaluation C payload request))
  /\ (forall evaluation_id request,
        checks_ask VIEW_EVALUATION request
          (fetch_evaluation_status C evaluation_id request))
  /\ (forall evaluation_id request,
        checks_ask VIEW_EVALUATION request
          (fetch_evaluation_results C evaluation_id request))
  /\ (forall evaluation_id request,
        checks_ask VIEW_EVALUATION request
          (fetch_evaluation_scenarios C evaluation_id request))
  /\ (forall app_id request,
        checks_ask VIEW_EVALUATION request
          (fetch_list_evaluations C app_id request))
  /\ (forall evaluation_id request,
        checks_ask VIEW_EVALUATION request
          (fetch_evaluation C evaluation_id request))
  /\ (forall payload request,
        checks_ask DELETE_EVALUATION request
          (delete_evaluations C payload request))
  /\ (forall evaluations_ids request,
        checks_ask VIEW_EVALUATION request
          (fetch_evaluation_scenarios_comparison C evaluations_ids request)).
Proof.
  repeat apply conj; intros.
  - asks_cases.
  - asks_cases.
  - asks_cases.
  - asks_cases.
  - asks_cases.
  - asks_cases.
  - asks_cases.
  - asks_cases.
  - asks_cases.
Qed.

(** *** Lookups that find nothing *)

(** X8. A missing app in [create_evaluation], and a missing evaluation in
    [fetch_evaluation_scenarios] and [fetch_evaluation], are answered at
    once: the lookup is the only call of the request (no permission check
    is made, in cloud mode as outside it), the world is the one the lookup
    left, and the error raised is 404 whose detail is [str()] of the
    [HTTPException] raised inside the handler. *)
Theorem not_found_precedes_permission :
  (forall payload request w w1,
      db_manager_fetch_app_by_id C (NewEvaluation.app_id payload)
        (State.project_id (Request.state request)) w = (Ok None, w1) ->
      create_evaluation C payload request w
      = (Raise (HTTPException 404 (str_HTTPException C 404 "App not found")),
         w1,
         [Ev_fetch_app_by_id (NewEvaluation.app_id payload)
            (State.project_id (Request.state request)) (Ok None)]))
  /\ (forall evaluation_id request w w1,
        db_manager_fetch_evaluation_by_id C evaluation_id
          (State.project_id (Request.state request)) w = (Ok None, w1) ->
        fetch_evaluation_scenarios C evaluation_id request w
        = (Raise (HTTPException 404
                    (str_HTTPException C 404
                       ("Evaluation with id " ++ evaluation_id ++ " not found"))),
           w1,
           [Ev_fetch_evaluation_by_id evaluation_id
              (State.project_id (Request.state request)) (Ok None)])
        /\ fetch_evaluation C evaluation_id request w
           = (Raise (HTTPException 404
                       (str_HTTPException C 404
                          ("Evaluation with id " ++ evaluation_id
                           ++ " not found"))),
              w1,
              [Ev_fetch_evaluation_by_id evaluation_id
                 (State.project_id (Request.state request)) (Ok None)])).
Proof.
  split.
  - intros payload request w w1 Hmissing.
    unfold_run. rewrite Hmissing. reflexivity.
  - intros evaluation_id request w w1 Hmissing.
    unfold_run. rewrite Hmissing. split; reflexivity.
Qed.

(** *** Creating: the calls around the loop *)

Ltac failing_shapes :=
  repeat match goal with
    | Hf : failing_iteration _ _ _ _ _ |- _ =>
        destruct Hf as [Hf|[? Hf]]; subst
    end.

Ltac in_cases :=
  repeat match goal with
    | H : In _ (_ :: _) |- _ => destruct H as [H|H]
    | H : In _ [] |- _ => destruct H
    end.

(** X9. When [check_ai_critique_inputs] answers that the inputs are not
    valid, [create_evaluation] returns the response that call built,
    unchanged, and that call is the last of the request: no evaluation is
    created, no job is enqueued and [update_last_modified_by] is not
    called. *)
Theorem create_evaluation_invalid_critique_inputs
  (payload : NewEvaluation.t) (request : Request.t) (w : World)
  (response : PyValue) :
  In (Ok (false, response))
     (critique_calls (trace (create_evaluation C payload request w))) ->
  result (create_evaluation C payload request w) = Ok (Forwarded response)
  /\ last_event (trace (create_evaluation C payload request w))
     = Some (Ev_check_ai_critique_inputs
               (NewEvaluation.evaluators_configs payload)
               (NewEvaluation.lm_providers_keys payload)
               (Ok (false, response)))
  /\ create_calls (trace (create_evaluation C payload request w)) = []
  /\ enqueued (trace (create_evaluation C payload request w)) = []
  /\ update_calls (trace (create_evaluation C payload request w)) = [].
Proof.
  unfold_run. split_calls; loop_facts; open_facts; subst; failing_shapes.
  all: cbn [critique_calls app created_event];
    repeat rewrite ?critique_calls_app, ?critique_calls_loop_events;
    cbn [critique_calls app created_event].
  all: intros Hin; in_cases; try discriminate.
  all: inversion Hin; subst.
  all: repeat split; try reflexivity; last_of_trace.
Qed.

(** X10. In [create_evaluation], [update_last_modified_by] is called only
    once every variant id of the payload has had its evaluation created and
    its job enqueued; it is called for the app of the payload and the user
    and project of the request, and it is the last call of the request.
    When it returns the handler returns the created evaluations; when it
    raises the handler raises the HTTP error built from the exception,
    although every evaluation has been created and every job enqueued. *)
Theorem create_evaluation_update_last_modified_by
  (payload : NewEvaluation.t) (request : Request.t) (w : World)
  (args : string * string * string * string) (r : Res unit) :
  In (args, r)
     (update_calls (trace (create_evaluation C payload request w))) ->
  args = (State.user_id (Request.state request),
          NewEvaluation.app_id payload, "app",
          State.project_id (Request.state request))
  /\ last_event (trace (create_evaluation C payload request w))
     = Some (Ev_update_last_modified_by
               (State.user_id (Request.state request))
               (NewEvaluation.app_id payload) "app"
               (State.project_id (Request.state request)) r)
  /\ exists done,
       map fst done = NewEvaluation.variant_ids payload
       /\ create_calls (trace (create_evaluation C payload request w))
          = map created_ok done
       /\ enqueued (trace (create_evaluation C payload request w))
          = map (enqueued_ok payload request) done
       /\ result (create_evaluation C payload request w)
          = match r with
            | Ok _ => Ok (Body (map snd done))
            | Raise exc => Raise (create_error C exc)
            end.
Proof.
  unfold_run. split_calls; loop_facts; open_facts; subst; failing_shapes.
  all: cbn [update_calls app created_event];
    repeat rewrite ?update_calls_app, ?update_calls_loop_events;
    cbn [update_calls app created_event].
  all: intros Hin; in_cases; try discriminate.
  all: inversion Hin; subst; clear Hin.
  all: split; [reflexivity|]; split; [last_of_trace|].
  all: match goal with
       | H : map fst ?d = NewEvaluation.variant_ids _ |- _ => exists d
       end.
  all: split; [assumption|].
  all: cbn [create_calls enqueued app];
    rewrite ?create_calls_app, ?enqueued_app, ?create_calls_loop_events,
      ?enqueued_loop_events; cbn [create_calls enqueued app];
    rewrite ?app_nil_r.
  all: repeat split; reflexivity.
Qed.

(** *** Deleting: the calls around the deletion *)

(** X11. In [delete_evaluations], [update_last_modified_by] is called for
    an id taken from the payload (as an evaluation, for the user and
    project of the request); when it raises, nothing is deleted and the
    handler raises 500 with the exception's message; and the deletion is
    requested at most once, only after that call has returned. *)
Theorem delete_evaluations_update_before_delete
  (payload : DeleteEvaluation.t) (request : Request.t) (w : World) :
  (forall args r,
      In (args, r)
         (update_calls (trace (delete_evaluations C payload request w))) ->
      exists evaluation_id,
        In evaluation_id (DeleteEvaluation.evaluations_ids payload)
        /\ args = (State.user_id (Request.state request), evaluation_id,
                   "evaluation", State.project_id (Request.state request)))
  /\ (forall args exc,
        In (args, Raise exc)
           (update_calls (trace (delete_evaluations C payload request w))) ->
        delete_calls (trace (delete_evaluations C payload request w)) = []
        /\ result (delete_evaluations C payload request w)
           = Raise (HTTPException 500 (py_str C exc)))
  /\ (forall deletion,
        In deletion
           (delete_calls (trace (delete_evaluations C payload request w))) ->
        delete_calls (trace (delete_evaluations C payload request w))
        = [deletion]
        /\ exists evaluation_id,
             update_calls (trace (delete_evaluations C payload request w))
             = [ (State.user_id (Request.state request), evaluation_id,
                  "evaluation", State.project_id (Request.state request),
                  Ok tt) ]).
Proof.
  unfold_run. split_calls; cbn [update_calls delete_calls app].
  all: repeat match goal with u : unit |- _ => destruct u end.
  all: repeat apply conj; intros; in_cases; try discriminate.
  all: repeat match goal with
         | H : (_, _) = (_, _) |- _ => inversion H; subst; clear H
         end.
  all: subst.
  all: try (eexists; split; [apply random_index_in|reflexivity]).
  all: try (split; reflexivity).
  all: split; [reflexivity|eexists; reflexivity].
Qed.

(** *** Splitting the id list *)

(** X12. The pieces [split(",")] cuts a string into contain no comma, there
    is one more of them than there are commas in the string (so at least
    one, also for the empty string), and joining them with commas gives
    the string back. *)
Theorem split_comma_join (s : string) :
  join_comma (split_comma s) = s
  /\ List.length (split_comma s) = S (count_commas s)
  /\ Forall (fun piece => count_commas piece = 0%nat) (split_comma s).
Proof.
  induction s as [|c rest (Hjoin & Hlen & Hpieces)].
  - cbn. repeat split. constructor; [reflexivity|constructor].
  - destruct (Ascii.eqb c ","%char) eqn:Hc.
    + apply Ascii.eqb_eq in Hc. subst c.
      change (split_comma (String ","%char rest))
        with (EmptyString :: split_comma rest).
      change (count_commas (String ","%char rest))
        with (S (count_commas rest)).
      destruct (split_comma rest) as [|piece pieces] eqn:Hrest;
        [destruct (split_comma_nonempty _ Hrest)|].
      change (join_comma (EmptyString :: piece :: pieces))
        with (String ","%char (join_comma (piece :: pieces))).
      rewrite Hjoin. split; [reflexivity|]. split.
      * cbn [List.length] in *. lia.
      * constructor; [reflexivity|exact Hpieces].
    + destruct (@split_comma_cons c rest Hc) as (piece & pieces & Hrest & Hsplit).
      rewrite Hsplit. rewrite Hrest in Hjoin, Hlen, Hpieces.
      rewrite join_comma_cons, Hjoin.
      cbn [count_commas]. rewrite Hc.
      split; [reflexivity|]. split.
      * cbn [List.length] in *. exact Hlen.
      * inversion Hpieces; subst. constructor; [|assumption].
        cbn [count_commas]. rewrite Hc. assumption.
Qed.

(** X13. Conversely, a non-empty list of comma-free ids, sent joined with
    commas, is split into exactly those ids, in order. *)
Theorem split_comma_of_join (pieces : list string) :
  pieces <> [] ->
  Forall (fun piece => count_commas piece = 0%nat) pieces ->
  split_comma (join_comma pieces) = pieces.
Proof.
  intros Hne Hfree. induction Hfree as [|piece pieces Hpiece Hfree IH];
    [congruence|clear Hne].
  revert Hpiece. induction piece as [|c piece IHpiece]; intros Hpiece.
  - destruct pieces as [|next pieces]; [reflexivity|].
    change (join_comma ("" :: next :: pieces))
      with (String ","%char (join_comma (next :: pieces))).
    cbn [split_comma]. rewrite Ascii.eqb_refl.
    rewrite IH by discriminate. reflexivity.
  - cbn [count_commas] in Hpiece.
    destruct (Ascii.eqb c ","%char) eqn:Hc; [discriminate|].
    rewrite join_comma_cons. cbn [split_comma]. rewrite Hc.
    rewrite (IHpiece Hpiece). reflexivity.
Qed.

(** *** Comparing: what is handed to the service and what comes back *)

(** X14. In cloud mode and outside it, the comparison handler calls
    [compare_evaluations_scenarios] with exactly the ids its argument
    splits into and the project of the request; that call is the last of
    the request, and its outcome is the handler's: what it returns is
    returned unchanged, and what it raises becomes 500 with the exception's
    message. *)
Theorem comparison_passes_the_service_answer
  (evaluations_ids : string) (request : Request.t) (w : World)
  (ids : list string) (project_id : string) (r : Res PyValue) :
  In (Ev_compare_evaluations_scenarios ids project_id r)
     (trace (fetch_evaluation_scenarios_comparison C evaluations_ids
               request w)) ->
  ids = split_comma evaluations_ids
  /\ project_id = State.project_id (Request.state request)
  /\ last_event
       (trace (fetch_evaluation_scenarios_comparison C evaluations_ids
                 request w))
     = Some (Ev_compare_evaluations_scenarios ids project_id r)
  /\ result (fetch_evaluation_scenarios_comparison C evaluations_ids
               request w)
     = match r with
       | Ok eval_scenarios => Ok (Body eval_scenarios)
       | Raise exc => Raise (HTTPException 500 (py_str C exc))
       end.
Proof.
  unfold_run. split_calls; loop_facts; open_facts; subst.
  all: rewrite ?app_nil_r; intros Hin.
  all: repeat match goal with
         | H : In _ (_ ++ _) |- _ =>
             apply in_app_iff in H; destruct H as [H|H]
         | H : In _ (map (granted_event _) _) |- _ =>
             destruct (no_compare_granted _ _ _ _ _ H)
         | H : In _ (_ :: _) |- _ => destruct H as [H|H]
         | H : In _ [] |- _ => destruct H
         end; try discriminate.
  all: inversion Hin; subst; clear Hin.
  all: repeat split; try reflexivity; last_of_trace.
Qed.

(** *** Handlers without a guard on what the lookup found *)

(** X15. When the app does not exist, [fetch_list_evaluations] goes on
    with [None]: a check it makes names no object, the evaluation service
    is asked for the evaluations of [None], and the handler answers 404
    only if a collaborator raised an exception carrying 404.  Outside
    cloud mode the request is exactly the lookup followed by the service
    call, whose list is returned with status 200. *)
Theorem fetch_list_evaluations_missing_app
  (app_id : string) (request : Request.t) (w w1 : World) :
  db_manager_fetch_app_by_id C app_id
    (State.project_id (Request.state request)) w = (Ok None, w1) ->
  Forall (fun check => Access.object (fst check) = None)
    (access_checks (trace (fetch_list_evaluations C app_id request w)))
  /\ (forall app project_id r,
        In (Ev_fetch_list_evaluations app project_id r)
           (trace (fetch_list_evaluations C app_id request w)) ->
        app = None)
  /\ (http_status (result (fetch_list_evaluations C app_id request w))
      = Some 404 ->
      exists exc,
        In exc (raising (trace (fetch_list_evaluations C app_id request w)))
        /\ status_code_attr exc = Some 404)
  /\ (isCloudEE C = false ->
      exists r,
        trace (fetch_list_evaluations C app_id request w)
        = [ Ev_fetch_app_by_id app_id
              (State.project_id (Request.state request)) (Ok None);
            Ev_fetch_list_evaluations None
              (State.project_id (Request.state request)) r ]
        /\ (forall evaluations,
              r = Ok evaluations ->
              result (fetch_list_evaluations C app_id request w)
              = Ok (Body evaluations)
              /\ http_status
                   (result (fetch_list_evaluations C app_id request w))
                 = Some 200)).
Proof.
  intros Hmissing. unfold_run. rewrite Hmissing. cbn [option_map].
  split_calls.
  all: cbn [access_checks raising event_exception raised_by http_status
            status_code_or_500 status_code_attr app fst].
  all: split_calls.
  all: repeat apply conj.
  all: try (repeat constructor; fail).
  all: try (intros app project_id r Hin; in_cases; try discriminate;
            inversion Hin; reflexivity).
  all: try (intros Hstatus; try discriminate Hstatus;
            match goal with
            | exc : PyExc |- _ =>
                exists exc; split; [left; reflexivity|];
                unfold status_code_or_500 in Hstatus;
                destruct (status_code_attr exc);
                [congruence|discriminate Hstatus]
            end).
  all: try (intros Hoss; congruence).
  all: intros _; eexists; split; [reflexivity|];
    intros evaluations Hr; inversion Hr; subst; split; reflexivity.
Qed.

(** X16. When the evaluation does not exist, [fetch_evaluation_status] and
    [fetch_evaluation_results] never return data: they answer 403 or 500,
    and a check they make on the way names no object. *)
Theorem status_and_results_missing_evaluation
  (evaluation_id : string) (request : Request.t) (w w1 : World) :
  db_manager_fetch_evaluation_by_id C evaluation_id
    (State.project_id (Request.state request)) w = (Ok None, w1) ->
  (http_status (result (fetch_evaluation_status C evaluation_id request w))
   = Some 403
   \/ http_status (result (fetch_evaluation_status C evaluation_id request w))
      = Some 500)
  /\ (http_status
        (result (fetch_evaluation_results C evaluation_id request w))
      = Some 403
      \/ http_status
           (result (fetch_evaluation_results C evaluation_id request w))
         = Some 500)
  /\ Forall (fun check => Access.object (fst check) = None)
       (access_checks
          (trace (fetch_evaluation_status C evaluation_id request w)))
  /\ Forall (fun check => Access.object (fst check) = None)
       (access_checks
          (trace (fetch_evaluation_results C evaluation_id request w))).
Proof.
  intros Hmissing. unfold_run. rewrite Hmissing. cbn [option_map].
  repeat apply conj.
  all: split_calls; cbn; auto.
Qed.

(** *** Listing ids by resource *)

(** X17. [fetch_evaluation_ids] does not use its [app_id] argument: two
    requests that differ in it only run alike.  When it returns a list of
    ids, these are the ids of the evaluations the database call returned
    for the resource type, the project of the request and the resource
    ids, one per evaluation and in the same order. *)
Theorem fetch_evaluation_ids_of_resource
  (app_id resource_type : string) (request : Request.t)
  (resource_ids : option (list string)) (w : World) :
  (forall other_app_id,
      fetch_evaluation_ids C other_app_id resource_type request resource_ids w
      = fetch_evaluation_ids C app_id resource_type request resource_ids w)
  /\ (forall ids,
        result (fetch_evaluation_ids C app_id resource_type request
                  resource_ids w) = Ok (Body ids) ->
        exists evaluations,
          last_event
            (trace (fetch_evaluation_ids C app_id resource_type request
                      resource_ids w))
          = Some (Ev_fetch_evaluations_by_resource resource_type
                    (State.project_id (Request.state request)) resource_ids
                    (Ok evaluations))
          /\ ids = map EvaluationDB.id evaluations
          /\ List.length ids = List.length evaluations).
Proof.
  split; [reflexivity|].
  unfold_run. split_calls.
  all: intros ids Hres; inversion Hres; subst.
  all: eexists; split; [last_of_trace|];
    split; [reflexivity|apply length_map].
Qed.

End RouterFacts.

(** ** Runs of the concrete deployment *)

Example split_comma_three :
  split_comma "a,b,,c" = ["a"; "b"; ""; "c"].
Proof. reflexivity. Qed.

Example split_comma_empty : split_comma "" = [""].
Proof. reflexivity. Qed.

Example create_two_variants :
  create_evaluation Sim.oss (Sim.new_payload ["v1"; "v2"]) Sim.request Sim.w0
  = (Ok (Body [Sim.new_evaluation "v1"; Sim.new_evaluation "v2"]),
     world (create_evaluation Sim.oss (Sim.new_payload ["v1"; "v2"])
              Sim.request Sim.w0),
     trace (create_evaluation Sim.oss (Sim.new_payload ["v1"; "v2"])
              Sim.request Sim.w0))
  /\ List.length
       (Sim.jobs
          (world (create_evaluation Sim.oss (Sim.new_payload ["v1"; "v2"])
                    Sim.request Sim.w0))) = 2%nat.
Proof. split; reflexivity. Qed.

Example delete_two :
  result (delete_evaluations Sim.oss
            (Sim.delete_payload ["evaluation-of-a"; "evaluation-of-b"])
            Sim.request Sim.w0)
  = Ok (Response None 204)
  /\ Sim.evaluations
       (world (delete_evaluations Sim.oss
                 (Sim.delete_payload ["evaluation-of-a"; "evaluation-of-b"])
                 Sim.request Sim.w0)) = [].
Proof. split; reflexivity. Qed.

(** *** C1: a missing evaluation id *)

Lemma missing_id_status_witness :
  db_manager_fetch_evaluation_by_id Sim.oss "00000000-0000-0000-0000-000000000000"
    (State.project_id (Request.state Sim.request)) Sim.w0
  = (Ok None, Sim.w0)
  /\ isCloudEE Sim.oss = false
  /\ result (fetch_evaluation_status Sim.oss "00000000-0000-0000-0000-000000000000" Sim.request Sim.w0)
     = Raise (HTTPException 500 "'NoneType' object has no attribute 'status'")
  /\ http_status
       (result (fetch_evaluation Sim.oss "00000000-0000-0000-0000-000000000000" Sim.request Sim.w0))
     = Some 404.
Proof.
  split; [reflexivity|]. split; [reflexivity|].
  destruct (@missing_id_status _ Sim.oss) as (_ & Hguarded & Hunguarded).
  split.
  - apply (Hunguarded "00000000-0000-0000-0000-000000000000" Sim.request Sim.w0 Sim.w0 eq_refl).
    reflexivity.
  - apply (Hguarded "00000000-0000-0000-0000-000000000000" Sim.request Sim.w0 Sim.w0 eq_refl).
Defined.

(** *** C2: the checks of a delete *)

(** On an empty payload the cloud deployment issues no check at all, so
    "exactly one check whatever the number of ids" fails there. *)
Lemma delete_empty_issues_no_check :
  List.length
    (access_checks
       (trace (delete_evaluations Sim.cloud_granting (Sim.delete_payload [])
                 Sim.request Sim.w0)))
  <> 1%nat.
Proof. cbv. discriminate. Qed.

Lemma delete_checks_one_id_comparison_each_witness :
  isCloudEE Sim.cloud_granting = true
  /\ DeleteEvaluation.evaluations_ids
       (Sim.delete_payload ["evaluation-of-a"; "evaluation-of-b"; "c"]) <> []
  /\ exists evaluation_id r,
       access_checks
         (trace (delete_evaluations Sim.cloud_granting
                   (Sim.delete_payload ["evaluation-of-a"; "evaluation-of-b"; "c"])
                   Sim.request Sim.w0))
       = [(delete_access Sim.request evaluation_id, r)]
       /\ In evaluation_id
            (DeleteEvaluation.evaluations_ids
               (Sim.delete_payload ["evaluation-of-a"; "evaluation-of-b"; "c"])).
Proof.
  split; [reflexivity|]. split; [discriminate|].
  apply (proj1 (@delete_checks_one_id_comparison_each _ Sim.cloud_granting
                  eq_refl)).
  discriminate.
Defined.

(** *** C3: a denial *)

Lemma permission_denied_is_403_witness :
  access_denied
    (trace (delete_evaluations Sim.cloud_denying
              (Sim.delete_payload ["evaluation-of-a"; "evaluation-of-b"])
              Sim.request Sim.w0))
  /\ result (delete_evaluations Sim.cloud_denying
               (Sim.delete_payload ["evaluation-of-a"; "evaluation-of-b"])
               Sim.request Sim.w0)
     = Ok (JSONResponse
             "You do not have permission to perform this action. Please contact your organization admin."
             403).
Proof.
  assert (Hdenied :
            access_denied
              (trace (delete_evaluations Sim.cloud_denying
                        (Sim.delete_payload
                           ["evaluation-of-a"; "evaluation-of-b"])
                        Sim.request Sim.w0))).
  { eexists. cbn. left. reflexivity. }
  split; [exact Hdenied|].
  destruct (@permission_denied_is_403 _ Sim.cloud_denying)
    as (_ & _ & _ & _ & _ & _ & _ & Hdelete & _).
  exact (Hdelete _ _ _ Hdenied).
Defined.

(** *** C4: one evaluation and one job per variant *)

Lemma create_evaluation_one_per_variant_witness :
  result (create_evaluation Sim.oss (Sim.new_payload ["v1"; "v2"; "v3"])
            Sim.request Sim.w0)
  = Ok (Body [Sim.new_evaluation "v1"; Sim.new_evaluation "v2";
              Sim.new_evaluation "v3"])
  /\ List.length
       (create_calls
          (trace (create_evaluation Sim.oss
                    (Sim.new_payload ["v1"; "v2"; "v3"]) Sim.request Sim.w0)))
     = 3%nat
  /\ List.length
       (enqueued
          (trace (create_evaluation Sim.oss
                    (Sim.new_payload ["v1"; "v2"; "v3"]) Sim.request Sim.w0)))
     = 3%nat.
Proof.
  split; [reflexivity|].
  destruct (@create_evaluation_one_per_variant _ Sim.oss
              (Sim.new_payload ["v1"; "v2"; "v3"]) Sim.request Sim.w0
              [Sim.new_evaluation "v1"; Sim.new_evaluation "v2";
               Sim.new_evaluation "v3"] eq_refl)
    as (_ & Hcreated & Henqueued).
  rewrite Hcreated, Henqueued. split; reflexivity.
Defined.

(** *** C5: the checks of a comparison *)

Lemma comparison_checks_every_id_witness :
  isCloudEE Sim.cloud_granting = true
  /\ In (Ev_compare_evaluations_scenarios ["a"; "b"; "c"] "project-1"
           (Ok (PyList [])))
        (trace (fetch_evaluation_scenarios_comparison Sim.cloud_granting
                  "a,b,c" Sim.request Sim.w0))
  /\ List.length
       (access_checks
          (trace (fetch_evaluation_scenarios_comparison Sim.cloud_granting
                    "a,b,c" Sim.request Sim.w0)))
     = 3%nat.
Proof.
  assert (Hcalled :
            In (Ev_compare_evaluations_scenarios ["a"; "b"; "c"] "project-1"
                  (Ok (PyList [])))
               (trace (fetch_evaluation_scenarios_comparison
                         Sim.cloud_granting "a,b,c" Sim.request Sim.w0))).
  { cbn. right. right. right. left. reflexivity. }
  split; [reflexivity|]. split; [exact Hcalled|].
  destruct (@comparison_checks_every_id _ Sim.cloud_granting "a,b,c"
              Sim.request Sim.w0 eq_refl) as (_ & Hchecks).
  destruct (Hchecks _ _ _ Hcalled) as (_ & _ & Hcount).
  exact Hcount.
Defined.

(** *** C6: a successful delete *)

Lemma delete_evaluations_success_witness :
  result (delete_evaluations Sim.cloud_granting
            (Sim.delete_payload ["evaluation-of-a"; "evaluation-of-b"])
            Sim.request Sim.w0)
  = Ok (Response None 204)
  /\ Response None 204
     <> JSONResponse (A := list string)
          "You do not have permission to perform this action. Please contact your organization admin."
          403
  /\ delete_calls
       (trace (delete_evaluations Sim.cloud_granting
                 (Sim.delete_payload ["evaluation-of-a"; "evaluation-of-b"])
                 Sim.request Sim.w0))
     = [ (["evaluation-of-a"; "evaluation-of-b"], "project-1", Ok tt) ].
Proof.
  split; [reflexivity|]. split; [discriminate|].
  apply (@delete_evaluations_success _ Sim.cloud_granting
           (Sim.delete_payload ["evaluation-of-a"; "evaluation-of-b"])
           Sim.request Sim.w0 (Response None 204) eq_refl).
  discriminate.
Defined.

(** *** C7: columns that do not match *)

Lemma create_evaluation_key_error_is_400_witness :
  result (create_evaluation_body Sim.oss
            (Sim.new_payload ["v1"; "unknown-columns"]) Sim.request Sim.w0)
  = Raise (KeyError "'country'")
  /\ result (create_evaluation Sim.oss
               (Sim.new_payload ["v1"; "unknown-columns"]) Sim.request Sim.w0)
     = Raise (HTTPException 400
                "columns in the test set should match the names of the inputs in the variant").
Proof.
  split; [reflexivity|].
  apply (@create_evaluation_key_error_is_400 _ Sim.oss
           (Sim.new_payload ["v1"; "unknown-columns"]) Sim.request Sim.w0
           "'country'").
  left. reflexivity.
Defined.

(** *** C8: what an escaping exception becomes *)

(** A missing evaluation makes the body of [fetch_evaluation] raise an
    [HTTPException] that carries 404, and the handler answers 404, not 500:
    the claim that every escaping exception becomes a 500 fails there. *)
Lemma own_status_code_is_kept :
  ~ always_500 Sim.oss
      (fetch_evaluation_body Sim.oss "missing" Sim.request)
      (fetch_evaluation Sim.oss "missing" Sim.request).
Proof.
  intros Hclaim.
  specialize (Hclaim Sim.w0
                (HTTPException 404 "Evaluation with id missing not found")
                eq_refl).
  cbv in Hclaim. discriminate Hclaim.
Qed.

Lemma exceptions_become_http_errors_witness :
  result (fetch_evaluation_body Sim.oss "missing" Sim.request Sim.w0)
  = Raise (HTTPException 404 "Evaluation with id missing not found")
  /\ result (fetch_evaluation Sim.oss "missing" Sim.request Sim.w0)
     = Raise (HTTPException 404 "Evaluation with id missing not found")
  /\ result (create_evaluation_body Sim.oss (Sim.new_payload ["broken"])
               Sim.request Sim.w0)
     = Raise (Error "OperationalError" None "queue unavailable")
  /\ result (create_evaluation Sim.oss (Sim.new_payload ["broken"])
               Sim.request Sim.w0)
     = Raise (HTTPException 500 "queue unavailable").
Proof.
  destruct (@exceptions_become_http_errors _ Sim.oss)
    as (_ & _ & _ & _ & _ & _ & Hfetch & _ & Hcreate & _ & _).
  split; [reflexivity|]. split.
  - rewrite (Hfetch "missing" Sim.request Sim.w0 _ eq_refl). reflexivity.
  - split; [reflexivity|].
    rewrite (Hcreate (Sim.new_payload ["broken"]) Sim.request Sim.w0 _ eq_refl).
    reflexivity.
Defined.

(** *** C9: an empty delete *)

Lemma delete_evaluations_empty_is_500_witness :
  DeleteEvaluation.evaluations_ids (Sim.delete_payload []) = []
  /\ result (delete_evaluations Sim.cloud_granting (Sim.delete_payload [])
               Sim.request Sim.w0)
     = Raise (HTTPException 500 "Cannot choose from an empty sequence")
  /\ result (delete_evaluations Sim.oss (Sim.delete_payload [])
               Sim.request Sim.w0)
     = Raise (HTTPException 500 "Cannot choose from an empty sequence").
Proof.
  split; [reflexivity|]. split.
  - apply (@delete_evaluations_empty_is_500 _ Sim.cloud_granting
             (Sim.delete_payload []) Sim.request Sim.w0 eq_refl).
  - apply (@delete_evaluations_empty_is_500 _ Sim.oss
             (Sim.delete_payload []) Sim.request Sim.w0 eq_refl).
Defined.

(** *** C10: a failure at the second variant *)

Lemma create_evaluation_not_atomic_witness :
  In (evaluate_kwargs (Sim.new_payload ["v1"; "broken"; "v3"]) Sim.request
        "broken" (Sim.new_evaluation "broken"),
      Raise (Error "OperationalError" None "queue unavailable"))
     (enqueued
        (trace (create_evaluation Sim.oss
                  (Sim.new_payload ["v1"; "broken"; "v3"]) Sim.request Sim.w0)))
  /\ result (create_evaluation Sim.oss
               (Sim.new_payload ["v1"; "broken"; "v3"]) Sim.request Sim.w0)
     = Raise (HTTPException 500 "queue unavailable")
  /\ Sim.jobs
       (world (create_evaluation Sim.oss
                 (Sim.new_payload ["v1"; "broken"; "v3"]) Sim.request Sim.w0))
     = [ evaluate_kwargs (Sim.new_payload ["v1"; "broken"; "v3"]) Sim.request
           "v1" (Sim.new_evaluation "v1") ].
Proof.
  assert (Hfailed :
            In (evaluate_kwargs (Sim.new_payload ["v1"; "broken"; "v3"])
                  Sim.request "broken" (Sim.new_evaluation "broken"),
                Raise (Error "OperationalError" None "queue unavailable"))
               (enqueued
                  (trace (create_evaluation Sim.oss
                            (Sim.new_payload ["v1"; "broken"; "v3"])
                            Sim.request Sim.w0)))).
  { cbn. right. left. reflexivity. }
  split; [exact Hfailed|].
  assert (Hloop :
            (exists variant_id,
                In (variant_id,
                    Raise (Error "OperationalError" None "queue unavailable"))
                   (create_calls
                      (trace (create_evaluation Sim.oss
                                (Sim.new_payload ["v1"; "broken"; "v3"])
                                Sim.request Sim.w0))))
            \/ (exists job,
                  In (job,
                      Raise (Error "OperationalError" None "queue unavailable"))
                     (enqueued
                        (trace (create_evaluation Sim.oss
                                  (Sim.new_payload ["v1"; "broken"; "v3"])
                                  Sim.request Sim.w0))))).
  { right. eexists. exact Hfailed. }
  destruct (@create_evaluation_not_atomic _ Sim.oss
              (Sim.new_payload ["v1"; "broken"; "v3"]) Sim.request Sim.w0
              (Error "OperationalError" None "queue unavailable") Hloop)
    as (done & variant_id & rest & failing & before
        & _ & _ & _ & _ & _ & _ & Hresult & _).
  split; [rewrite Hresult; reflexivity|reflexivity].
Defined.

(** ** Further runs of the concrete deployments *)

(** *** X2 *)

Lemma no_check_outside_cloud_witness :
  isCloudEE Sim.oss = false
  /\ access_checks
       (trace (delete_evaluations Sim.oss
                 (Sim.delete_payload ["evaluation-of-a"]) Sim.request Sim.w0))
     = []
  /\ access_checks
       (trace (fetch_evaluation_scenarios_comparison Sim.oss "a,b"
                 Sim.request Sim.w0))
     = [].
Proof.
  split; [reflexivity|].
  destruct (@no_check_outside_cloud _ Sim.oss eq_refl)
    as (_ & _ & _ & _ & _ & _ & _ & Hdelete & Hcompare).
  split; [apply Hdelete|apply Hcompare].
Defined.

(** *** X3 *)

Lemma cloud_returns_only_if_granted_witness :
  isCloudEE Sim.cloud_granting = true
  /\ result (fetch_evaluation Sim.cloud_granting "evaluation-of-a"
               Sim.request Sim.w0)
     = Ok (Body (PyDict [("id", PyStr "evaluation-of-a")]))
  /\ granted_throughout
       (trace (fetch_evaluation Sim.cloud_granting "evaluation-of-a"
                 Sim.request Sim.w0)).
Proof.
  split; [reflexivity|]. split; [reflexivity|].
  destruct (@cloud_returns_only_if_granted _ Sim.cloud_granting eq_refl)
    as (_ & _ & _ & _ & _ & _ & Hfetch & _).
  apply (Hfetch "evaluation-of-a" Sim.request Sim.w0
           (Body (PyDict [("id", PyStr "evaluation-of-a")])) eq_refl).
  discriminate.
Defined.

(** *** X4 *)

Lemma denial_is_last_call_witness :
  exists args,
    In (args, Ok false)
       (access_checks
          (trace (create_evaluation Sim.cloud_denying
                    (Sim.new_payload ["v1"; "v2"]) Sim.request Sim.w0)))
    /\ last_event
         (trace (create_evaluation Sim.cloud_denying
                   (Sim.new_payload ["v1"; "v2"]) Sim.request Sim.w0))
       = Some (Ev_check_action_access args (Ok false))
    /\ Sim.jobs
         (world (create_evaluation Sim.cloud_denying
                   (Sim.new_payload ["v1"; "v2"]) Sim.request Sim.w0))
       = [].
Proof.
  exists {| Access.user_uid := "user-1";
         Access.project_id := Some "project-1";
         Access.permission := CREATE_EVALUATION;
         Access.object := None;
         Access.object_id := None;
         Access.object_type := None |}.
  assert (Hdenied :
            In ({| Access.user_uid := "user-1";
               Access.project_id := Some "project-1";
               Access.permission := CREATE_EVALUATION;
               Access.object := None;
               Access.object_id := None;
               Access.object_type := None |},
                Ok false)
               (access_checks
                  (trace (create_evaluation Sim.cloud_denying
                            (Sim.new_payload ["v1"; "v2"]) Sim.request
                            Sim.w0)))).
  { cbn. left. reflexivity. }
  split; [exact Hdenied|]. split; [|reflexivity].
  destruct (@denial_is_last_call _ Sim.cloud_denying) as (_ & Hcreate & _).
  exact (Hcreate _ _ _ _ Hdenied).
Defined.

(** *** X5 *)

Lemma failure_is_last_call_witness :
  In (Error "OperationalError" None "queue unavailable")
     (raising
        (trace (create_evaluation Sim.oss
                  (Sim.new_payload ["v1"; "broken"; "v3"]) Sim.request Sim.w0)))
  /\ raising
       (trace (create_evaluation Sim.oss
                 (Sim.new_payload ["v1"; "broken"; "v3"]) Sim.request Sim.w0))
     = [Error "OperationalError" None "queue unavailable"].
Proof.
  assert (Hraised :
            In (Error "OperationalError" None "queue unavailable")
               (raising
                  (trace (create_evaluation Sim.oss
                            (Sim.new_payload ["v1"; "broken"; "v3"])
                            Sim.request Sim.w0)))).
  { cbn. left. reflexivity. }
  split; [exact Hraised|].
  destruct (@failure_is_last_call _ Sim.oss) as (_ & Hcreate & _).
  exact (proj1 (Hcreate _ _ _ _ Hraised)).
Defined.

(** *** X8 *)

Lemma not_found_precedes_permission_witness :
  db_manager_fetch_evaluation_by_id Sim.cloud_denying
    "00000000-0000-0000-0000-000000000000"
    (State.project_id (Request.state Sim.request)) Sim.w0
  = (Ok None, Sim.w0)
  /\ fetch_evaluation Sim.cloud_denying
       "00000000-0000-0000-0000-000000000000" Sim.request Sim.w0
     = (Raise (HTTPException 404
                 "Evaluation with id 00000000-0000-0000-0000-000000000000 not found"),
        Sim.w0,
        [Ev_fetch_evaluation_by_id "00000000-0000-0000-0000-000000000000"
           "project-1" (Ok None)]).
Proof.
  split; [reflexivity|].
  apply (proj2 (@not_found_precedes_permission _ Sim.cloud_denying)
           "00000000-0000-0000-0000-000000000000" Sim.request Sim.w0 Sim.w0
           eq_refl).
Defined.

(** *** X9 *)

Lemma create_evaluation_invalid_critique_inputs_witness :
  In (Ok (false, SimStrict.rejection))
     (critique_calls
        (trace (create_evaluation SimStrict.collaborators
                  (Sim.new_payload ["v1"; "v2"]) Sim.request Sim.w0)))
  /\ result (create_evaluation SimStrict.collaborators
               (Sim.new_payload ["v1"; "v2"]) Sim.request Sim.w0)
     = Ok (Forwarded SimStrict.rejection)
  /\ create_calls
       (trace (create_evaluation SimStrict.collaborators
                 (Sim.new_payload ["v1"; "v2"]) Sim.request Sim.w0))
     = [].
Proof.
  assert (Hrejected :
            In (Ok (false, SimStrict.rejection))
               (critique_calls
                  (trace (create_evaluation SimStrict.collaborators
                            (Sim.new_payload ["v1"; "v2"]) Sim.request
                            Sim.w0)))).
  { cbn. left. reflexivity. }
  split; [exact Hrejected|].
  destruct (@create_evaluation_invalid_critique_inputs _
              SimStrict.collaborators (Sim.new_payload ["v1"; "v2"])
              Sim.request Sim.w0 SimStrict.rejection Hrejected)
    as (Hresult & _ & Hcreated & _).
  split; [exact Hresult|exact Hcreated].
Defined.

(** *** X10 *)

Lemma create_evaluation_update_last_modified_by_witness :
  In (("user-1", "app-1", "app", "project-1"), Ok tt)
     (update_calls
        (trace (create_evaluation Sim.oss (Sim.new_payload ["v1"; "v2"])
                  Sim.request Sim.w0)))
  /\ last_event
       (trace (create_evaluation Sim.oss (Sim.new_payload ["v1"; "v2"])
                 Sim.request Sim.w0))
     = Some (Ev_update_last_modified_by "user-1" "app-1" "app" "project-1"
               (Ok tt)).
Proof.
  assert (Hcalled :
            In (("user-1", "app-1", "app", "project-1"), Ok tt)
               (update_calls
                  (trace (create_evaluation Sim.oss
                            (Sim.new_payload ["v1"; "v2"]) Sim.request
                            Sim.w0)))).
  { cbn. left. reflexivity. }
  split; [exact Hcalled|].
  destruct (@create_evaluation_update_last_modified_by _ Sim.oss
              (Sim.new_payload ["v1"; "v2"]) Sim.request Sim.w0 _ _ Hcalled)
    as (_ & Hlast & _).
  exact Hlast.
Defined.

(** *** X11 *)

Lemma delete_evaluations_update_before_delete_witness :
  In (["evaluation-of-a"; "evaluation-of-b"], "project-1", Ok tt)
     (delete_calls
        (trace (delete_evaluations Sim.oss
                  (Sim.delete_payload ["evaluation-of-a"; "evaluation-of-b"])
                  Sim.request Sim.w0)))
  /\ exists evaluation_id,
       update_calls
         (trace (delete_evaluations Sim.oss
                   (Sim.delete_payload ["evaluation-of-a"; "evaluation-of-b"])
                   Sim.request Sim.w0))
       = [("user-1", evaluation_id, "evaluation", "project-1", Ok tt)].
Proof.
  assert (Hdeleted :
            In (["evaluation-of-a"; "evaluation-of-b"], "project-1", Ok tt)
               (delete_calls
                  (trace (delete_evaluations Sim.oss
                            (Sim.delete_payload
                               ["evaluation-of-a"; "evaluation-of-b"])
                            Sim.request Sim.w0)))).
  { cbn. left. reflexivity. }
  split; [exact Hdeleted|].
  destruct (@delete_evaluations_update_before_delete _ Sim.oss
              (Sim.delete_payload ["evaluation-of-a"; "evaluation-of-b"])
              Sim.request Sim.w0) as (_ & _ & Hdelete).
  exact (proj2 (Hdelete _ Hdeleted)).
Defined.

(** *** X13 *)

Lemma split_comma_of_join_witness :
  ["a"; ""; "evaluation-of-b"] <> []
  /\ Forall (fun piece => count_commas piece = 0%nat)
       ["a"; ""; "evaluation-of-b"]
  /\ split_comma (join_comma ["a"; ""; "evaluation-of-b"])
     = ["a"; ""; "evaluation-of-b"].
Proof.
  assert (Hfree :
            Forall (fun piece => count_commas piece = 0%nat)
              ["a"; ""; "evaluation-of-b"]).
  { repeat constructor. }
  split; [discriminate|]. split; [exact Hfree|].
  apply split_comma_of_join; [discriminate|exact Hfree].
Defined.

(** *** X14 *)

Lemma comparison_passes_the_service_answer_witness :
  In (Ev_compare_evaluations_scenarios ["a"; "b"] "project-1" (Ok (PyList [])))
     (trace (fetch_evaluation_scenarios_comparison Sim.oss "a,b" Sim.request
               Sim.w0))
  /\ result (fetch_evaluation_scenarios_comparison Sim.oss "a,b" Sim.request
               Sim.w0)
     = Ok (Body (PyList [])).
Proof.
  assert (Hcalled :
            In (Ev_compare_evaluations_scenarios ["a"; "b"] "project-1"
                  (Ok (PyList [])))
               (trace (fetch_evaluation_scenarios_comparison Sim.oss "a,b"
                         Sim.request Sim.w0))).
  { cbn. left. reflexivity. }
  split; [exact Hcalled|].
  destruct (@comparison_passes_the_service_answer _ Sim.oss "a,b" Sim.request
              Sim.w0 _ _ _ Hcalled) as (_ & _ & _ & Hresult).
  exact Hresult.
Defined.

(** *** X15 *)

Lemma fetch_list_evaluations_missing_app_witness :
  db_manager_fetch_app_by_id Sim.oss "no-such-app"
    (State.project_id (Request.state Sim.request)) Sim.w0
  = (Ok None, Sim.w0)
  /\ isCloudEE Sim.oss = false
  /\ exists r,
       trace (fetch_list_evaluations Sim.oss "no-such-app" Sim.request Sim.w0)
       = [ Ev_fetch_app_by_id "no-such-app"
             (State.project_id (Request.state Sim.request)) (Ok None);
           Ev_fetch_list_evaluations None
             (State.project_id (Request.state Sim.request)) r ]
       /\ (forall evaluations,
             r = Ok evaluations ->
             result (fetch_list_evaluations Sim.oss "no-such-app"
                       Sim.request Sim.w0)
             = Ok (Body evaluations)
             /\ http_status
                  (result (fetch_list_evaluations Sim.oss "no-such-app"
                             Sim.request Sim.w0))
                = Some 200).
Proof.
  split; [reflexivity|]. split; [reflexivity|].
  destruct (@fetch_list_evaluations_missing_app _ Sim.oss "no-such-app"
              Sim.request Sim.w0 Sim.w0 eq_refl) as (_ & _ & _ & Hoss).
  exact (Hoss eq_refl).
Defined.

(** *** X16 *)

Lemma status_and_results_missing_evaluation_witness :
  db_manager_fetch_evaluation_by_id Sim.cloud_denying
    "00000000-0000-0000-0000-000000000000"
    (State.project_id (Request.state Sim.request)) Sim.w0
  = (Ok None, Sim.w0)
  /\ (http_status
        (result (fetch_evaluation_status Sim.cloud_denying
                   "00000000-0000-0000-0000-000000000000" Sim.request Sim.w0))
      = Some 403
      \/ http_status
           (result (fetch_evaluation_status Sim.cloud_denying
                      "00000000-0000-0000-0000-000000000000" Sim.request
                      Sim.w0))
         = Some 500).
Proof.
  split; [reflexivity|].
  apply (@status_and_results_missing_evaluation _ Sim.cloud_denying
           "00000000-0000-0000-0000-000000000000" Sim.request Sim.w0 Sim.w0
           eq_refl).
Defined.

(** *** X17 *)

Lemma fetch_evaluation_ids_of_resource_witness :
  result (fetch_evaluation_ids Sim.oss "app-1" "testset" Sim.request
            (Some ["testset-1"]) Sim.w0)
  = Ok (Body ["evaluation-of-a"; "evaluation-of-b"])
  /\ exists evaluations,
       last_event
         (trace (fetch_evaluation_ids Sim.oss "app-1" "testset" Sim.request
                   (Some ["testset-1"]) Sim.w0))
       = Some (Ev_fetch_evaluations_by_resource "testset"
                 (State.project_id (Request.state Sim.request))
                 (Some ["testset-1"]) (Ok evaluations))
       /\ ["evaluation-of-a"; "evaluation-of-b"]
          = map EvaluationDB.id evaluations
       /\ List.length ["evaluation-of-a"; "evaluation-of-b"]
          = List.length evaluations.
Proof.
  split; [reflexivity|].
  apply (proj2 (@fetch_evaluation_ids_of_resource _ Sim.oss "app-1" "testset"
                  Sim.request (Some ["testset-1"]) Sim.w0)).
  reflexivity.
Defined.
